(** * Climate dashboard (tem.py): filtering, recommendation, map and chart logic

    A shallow embedding of the Streamlit script [tem.py].  The script is a
    straight-line pass over an uploaded table; every [st.*] call emits a page
    element and an uncaught exception ends the pass.  It is modelled as a
    computation that logs the elements it emits and either returns or raises.

    Numbers: a float64 / int64 cell is written as the rational it denotes
    ([Q]); a missing cell (NaN) is a separate constructor.  The only
    arithmetic of the script is [Series.mean()]: [part1_with] leaves its
    float64 sum and quotient as parameters, [part1] is the instance in exact
    rational arithmetic.  Column names are strings of 8-bit characters; the
    model of [strip] and [lower] is Python's on code points below 128, and
    [df[name]] is one column when the names are distinct
    ([faithful_headers]). *)

Set Warnings "-notation-overridden,-ambiguous-paths,-notation-incompatible-prefix,-rewrite-rw".
From Stdlib Require Import Ascii String ZArith QArith.
From mathcomp Require Import ssreflect ssrfun ssrbool eqtype ssrnat seq path.
Close Scope Q_scope.

Set Implicit Arguments.
Unset Strict Implicit.
Unset Printing Implicit Defensive.

Local Open Scope string_scope.

(** ** Column-name normalization (tem.py:45)

    [df.columns.str.strip().str.replace(" ", "_").str.lower()] *)

Module Names.

(** Python's [str.isspace] on a code point below 128: TAB..CR, FS..US, SPACE. *)
Definition isspace (c : ascii) : bool :=
  let n := nat_of_ascii c in
  ((9 <= n) && (n <= 13)) || ((28 <= n) && (n <= 32)).

Fixpoint lstrip (s : string) : string :=
  match s with
  | EmptyString => EmptyString
  | String c s' => if isspace c then lstrip s' else s
  end.

Fixpoint rstrip (s : string) : string :=
  match s with
  | EmptyString => EmptyString
  | String c s' =>
      match rstrip s' with
      | EmptyString => if isspace c then EmptyString else String c EmptyString
      | r => String c r
      end
  end.

(** [str.strip()]: whitespace removed at both ends. *)
Definition strip (s : string) : string := rstrip (lstrip s).

Fixpoint smap (f : ascii -> ascii) (s : string) : string :=
  match s with
  | EmptyString => EmptyString
  | String c s' => String (f c) (smap f s')
  end.

(** [str.replace(" ", "_")]: the pattern is one character, so the
    replacement is character-wise. *)
Definition replace_char (c : ascii) : ascii :=
  if Ascii.eqb c " "%char then "_"%char else c.

Definition replace_space (s : string) : string := smap replace_char s.

(** [str.lower()] on code points below 128: A..Z go to a..z. *)
Definition lower_char (c : ascii) : ascii :=
  let n := nat_of_ascii c in
  if (65 <= n) && (n <= 90) then ascii_of_nat (n + 32) else c.

Definition lower (s : string) : string := smap lower_char s.

Definition normalize (s : string) : string := lower (replace_space (strip s)).

(** The assignment to [df.columns] normalizes every name, in order. *)
Definition normalize_columns (cols : seq string) : seq string :=
  map normalize cols.

(** A string that does not start, respectively end, with whitespace. *)
Definition lclean (s : string) : bool :=
  if s is String c _ then ~~ isspace c else true.

Fixpoint rclean (s : string) : bool :=
  match s with
  | EmptyString => true
  | String c s' => if s' is EmptyString then ~~ isspace c else rclean s'
  end.

(** What normalization does to one character once the ends are trimmed. *)
Definition canon (c : ascii) : ascii := lower_char (replace_char c).

End Names.

(** ** Tables (pandas DataFrame) *)

(** A numeric cell: a finite number or NaN, pandas' marker of a missing
    value. *)
Inductive number := Fin (q : Q) | NaN.

Inductive value := VStr (s : string) | VNum (x : number).

(** Row-major table: the column index and the rows, each row holding one cell
    per column. *)
Record DataFrame := mkDF { columns : seq string; rows : seq (seq value) }.

Inductive error := KeyError (name : string) | TypeError.

Inductive crop := Wheat | Rice | Potatoes.

Inductive plot_kind := Scatter | Line | Bar | Pie | Histogram.

(** A figure handed to [st.plotly_chart]: the data and the field arguments of
    the call that built it.  Layout and styling are left out. *)
Inductive figure :=
| DualAxis (year temperature co2 : seq value)
| Choropleth (data : DataFrame) (outlined : bool)
| PxScatter (data : DataFrame) (x y : string) (color : option string) (title : string)
| PxLine (data : DataFrame) (x y : string) (color : option string) (title : string)
| PxBar (data : DataFrame) (x y : string) (color : option string) (title : string)
| PxPie (data : DataFrame) (names values : string) (title : string)
| PxHistogram (data : DataFrame) (x : string) (color : option string)
              (title : string) (nbins : nat).

(** What the page shows, one constructor per Streamlit call.  A number
    written with [:.2f] is kept as the number, between its prefix and
    suffix. *)
Inductive element :=
| StyleSheet
| Title (text : string)
| FileUploader (label : string)
| Info (msg : string)
| Warning (msg : string)
| SidebarHeader (text : string)
| Selectbox (label : string) (options : seq (option value))
| Header (text : string)
| Subheader (text : string)
| WriteText (text : string)
| WriteFixed2 (prefix : string) (x : number) (suffix : string)
| PlotlyChart (fig : figure).

(** The state of the sidebar widgets: what each [selectbox] returns. *)
Record Widgets := mkWidgets {
  selected_country : option value;
  selected_year : option value;
  plot_type : plot_kind;
  x_axis : string;
  y_axis : string;
  color : option string;
  pie_values : string
}.

(** ** The script monad: a log of emitted elements and a result or an
    uncaught exception *)

Inductive outcome (A : Type) := Done (a : A) | Raised (e : error).
Arguments Raised {A} e.

Definition M (A : Type) : Type := (seq element * outcome A)%type.

Definition ret {A} (a : A) : M A := ([::], Done a).

Definition raise {A} (e : error) : M A := ([::], Raised e).

Definition emit (e : element) : M unit := ([:: e], Done tt).

Definition bind {A B} (m : M A) (k : A -> M B) : M B :=
  match m with
  | (log, Done a) => let: (log', r) := k a in ((log ++ log')%SEQ, r)
  | (log, Raised e) => (log, Raised e)
  end.

Notation "'let*' x ':=' m 'in' k" := (bind m (fun x => k))
  (at level 10, x name, m at level 100, k at level 200).
Notation "m ';;' k" := (bind m (fun _ => k))
  (at level 100, k at level 200, right associativity).

Definition log_of {A} (m : M A) : seq element := m.1.
Definition result_of {A} (m : M A) : outcome A := m.2.

(** ** pandas operations used by the script *)

Definition is_str (v : value) : bool := if v is VStr _ then true else false.

Definition notna (v : value) : bool := if v is VNum NaN then false else true.

(** Python [==] between two scalars; NaN equals nothing, and a string never
    equals a number. *)
Definition py_eq (v w : value) : bool :=
  match v, w with
  | VStr a, VStr b => String.eqb a b
  | VNum (Fin p), VNum (Fin q) => Qeq_bool p q
  | _, _ => false
  end.

(** [x == selection], where the selection may be [None]. *)
Definition eq_selection (sel : option value) (v : value) : bool :=
  if sel is Some w then py_eq v w else false.

(** Python truth value of a selection: [None], the empty string and zero are
    falsy; NaN is truthy. *)
Definition truthy (sel : option value) : bool :=
  match sel with
  | None => false
  | Some (VStr s) => ~~ String.eqb s ""
  | Some (VNum (Fin q)) => ~~ Qeq_bool q 0
  | Some (VNum NaN) => true
  end.

Definition column_index (df : DataFrame) (name : string) : nat :=
  find (String.eqb name) (columns df).

Definition has_column (df : DataFrame) (name : string) : bool :=
  has (String.eqb name) (columns df).

Definition cell (i : nat) (row : seq value) : value := nth (VNum NaN) row i.

(** The cells of column [name], one per row. *)
Definition column (df : DataFrame) (name : string) : seq value :=
  [seq cell (column_index df name) r | r <- rows df].

(** [df[name]]: the column as a Series, or KeyError.  Column names are
    taken to be distinct, as in the table invariant; the first match is
    read. *)
Definition getitem (df : DataFrame) (name : string) : M (seq value) :=
  if has_column df name then ret (column df name) else raise (KeyError name).

(** [series == selection]: the boolean mask. *)
Definition series_eq (col : seq value) (sel : option value) : seq bool :=
  [seq eq_selection sel v | v <- col].

(** [df[mask]]: boolean indexing keeps the rows whose mask bit is set, in
    order; the result is a new table. *)
Definition boolean_index (df : DataFrame) (m : seq bool) : DataFrame :=
  mkDF (columns df) (mask m (rows df)).

(** [df.empty]: some axis has length zero. *)
Definition empty (df : DataFrame) : bool :=
  (size (rows df) == 0) || (size (columns df) == 0).

(** [df[name] = series]: overwrite the column when it exists, else append
    it. *)
Definition setitem (df : DataFrame) (name : string) (series : seq value)
  : DataFrame :=
  let i := column_index df name in
  if has_column df name
  then mkDF (columns df)
            [seq set_nth (VNum NaN) rv.1 i rv.2 | rv <- zip (rows df) series]
  else mkDF (rcons (columns df) name)
            [seq rcons rv.1 rv.2 | rv <- zip (rows df) series].

Definition Qsum (s : seq Q) : Q := foldr Qplus 0%Q s.

Definition Qcount (n : nat) : Q := inject_Z (Z.of_nat n).

(** The number a cell contributes to a skip-NaN sum: NaN counts as zero. *)
Definition nan_to_zero (v : value) : Q :=
  if v is VNum (Fin q) then q else 0%Q.

(** [Series.sum()] with the default [skipna=True], on a numeric column. *)
Definition series_sum (col : seq value) : Q := Qsum [seq nan_to_zero v | v <- col].

(** [Series.mean()] with the default [skipna=True]: the sum of the cells
    that are not NaN over their count, NaN when there is none; a column
    holding a string cannot be averaged. *)
Definition series_mean (col : seq value) : M number :=
  if has is_str col then raise TypeError
  else
    let n := count notna col in
    if n == 0 then ret NaN
    else ret (Fin (series_sum col / Qcount n)%Q).

(** [Series.dropna()]. *)
Definition dropna (col : seq value) : seq value := filter notna col.

(** Same cell content, as [Series.unique()] sees it: NaNs are merged. *)
Definition same_value (v w : value) : bool :=
  match v, w with
  | VNum NaN, VNum NaN => true
  | _, _ => py_eq v w
  end.

(** [Series.unique()]: distinct values in order of first appearance. *)
Fixpoint unique (col : seq value) : seq value :=
  match col with
  | [::] => [::]
  | v :: col' => v :: filter (fun w => ~~ same_value v w) (unique col')
  end.

(** Python [<=] inside one kind of values; comparisons with NaN are false. *)
Definition py_le (v w : value) : bool :=
  match v, w with
  | VStr a, VStr b => String.leb a b
  | VNum (Fin p), VNum (Fin q) => Qle_bool p q
  | _, _ => false
  end.

(** [sorted(values)]: TypeError when a string meets a number.  Where the
    list holds a NaN the place Python's sort gives it is not modelled. *)
Definition mixed_kinds (vals : seq value) : bool :=
  has is_str vals && ~~ all is_str vals.

Definition py_sorted (vals : seq value) : M (seq value) :=
  if mixed_kinds vals then raise TypeError else ret (sort py_le vals).

(** [st.sidebar.selectbox(label, options)]: shows the widget and returns the
    current choice. *)
Definition selectbox {A} (label : string) (options : seq (option value))
  (choice : A) : M A :=
  emit (Selectbox label options);; ret choice.

Definition column_options (df : DataFrame) : seq (option value) :=
  [seq Some (VStr c) | c <- columns df].

(** ** Filter engine (tem.py:56-60) *)

Definition apply_filters (df : DataFrame)
  (selected_country selected_year : option value) : M DataFrame :=
  let filtered_df := df in
  let* filtered_df :=
    if truthy selected_country then
      let* col := getitem filtered_df "country" in
      ret (boolean_index filtered_df (series_eq col selected_country))
    else ret filtered_df in
  if truthy selected_year then
    let* col := getitem filtered_df "year" in
    ret (boolean_index filtered_df (series_eq col selected_year))
  else ret filtered_df.

(** ** Part 1: predicted values and crop suggestion (tem.py:63-81) *)

(** [x > c] and [x <= c] on a mean that may be NaN: both are false on NaN. *)
Definition gt (x : number) (c : Q) : bool :=
  if x is Fin q then ~~ Qle_bool q c else false.

Definition le (x : number) (c : Q) : bool :=
  if x is Fin q then Qle_bool q c else false.

(** The [if] / [elif] / [else] of tem.py:74-79. *)
Definition crop_suggestion (predicted_temp predicted_co2 : number) : crop :=
  if gt predicted_temp 1.5 && gt predicted_co2 400 then Wheat
  else if gt predicted_temp 1.0 && le predicted_co2 400 then Rice
  else Potatoes.

Definition crop_name (c : crop) : string :=
  match c with
  | Wheat => "Wheat, Corn, or Soybeans"
  | Rice => "Rice, Oats, or Barley"
  | Potatoes => "Potatoes, Tomatoes, or Lettuce"
  end.

Definition suggestion_text (c : crop) : string :=
  "It is recommended to yield crops like **" ++ crop_name c ++ "**.".

Definition no_data_warning : string :=
  "No data available for the selected country and year. Adjust filters or upload a different dataset.".

(** [df[name].mean()]. *)
Definition column_mean (df : DataFrame) (name : string) : M number :=
  let* col := getitem df name in
  series_mean col.

Definition part1 (filtered_df : DataFrame) : M unit :=
  emit (Header "Part 1: Predicted Temperature, CO2, and Crop Yield Suggestions");;
  if ~~ empty filtered_df then
    let* predicted_temp := column_mean filtered_df "temperature_anomaly" in
    let* predicted_co2 := column_mean filtered_df "average_co2" in
    emit (WriteFixed2 "**Predicted Temperature Anomaly:** " predicted_temp "°C");;
    emit (WriteFixed2 "**Predicted Average CO2 Level:** " predicted_co2 " ppm");;
    emit (Subheader "Suggested Crop to Yield");;
    emit (WriteText (suggestion_text (crop_suggestion predicted_temp predicted_co2)))
  else
    emit (Warning no_data_warning).

(** ** Part 2: dual-axis plot over the whole table (tem.py:84-133) *)

Definition part2 (df : DataFrame) : M unit :=
  emit (Header "Part 2: Temperature and CO2 Levels Over Time (Entire Dataset)");;
  if ~~ empty df then
    let* year := getitem df "year" in
    let* temperature := getitem df "temperature_anomaly" in
    let* _year := getitem df "year" in
    let* co2 := getitem df "average_co2" in
    emit (PlotlyChart (DualAxis year temperature co2))
  else
    emit (Warning "No data available to display the dual-axis plot. Please upload a dataset.").

(** ** Part 3: map (tem.py:136-168) *)

(** tem.py:139.  When no year is applied [map_data] is [df] itself, not a
    copy. *)
Definition select_map_rows (df : DataFrame) (selected_year : option value)
  : M DataFrame :=
  if truthy selected_year then
    let* col := getitem df "year" in
    ret (boolean_index df (series_eq col selected_year))
  else ret df.

(** The lambda of tem.py:143. *)
Definition highlight_label (selected_country : option value) (x : value) : value :=
  if eq_selection selected_country x then VStr "Selected Country"
  else VStr "Other Countries".

(** tem.py:142-144: [map_data['highlight'] = map_data['country'].apply(...)]. *)
Definition attach_highlight (map_data : DataFrame)
  (selected_country : option value) : M DataFrame :=
  let* country := getitem map_data "country" in
  ret (setitem map_data "highlight"
         [seq highlight_label selected_country x | x <- country]).

(** Returns the table [df] as the rest of the script sees it: the highlight
    column is written into [df] when [map_data] aliases it.  The choropleth
    reads [country], [temperature_anomaly] and [average_co2], columns that
    Part 2 has read before on every table with a row. *)
Definition part3 (df : DataFrame) (selected_country selected_year : option value)
  : M DataFrame :=
  emit (Header "Part 3: Map of Predicted Temperature and CO2 Levels");;
  let* map_data := select_map_rows df selected_year in
  if ~~ empty map_data then
    let* map_data := attach_highlight map_data selected_country in
    emit (PlotlyChart (Choropleth map_data (truthy selected_country)));;
    ret (if truthy selected_year then df else map_data)
  else
    emit (Warning "No data available for the selected year to display the map.");;
    ret df.

(** ** Part 4: custom plot (tem.py:171-192) *)

Definition plot_label (k : plot_kind) : string :=
  match k with
  | Scatter => "Scatter Plot"
  | Line => "Line Chart"
  | Bar => "Bar Chart"
  | Pie => "Pie Chart"
  | Histogram => "Histogram"
  end.

(** [color if color else None]: an empty column name is falsy as well. *)
Definition color_arg (color : option string) : option string :=
  match color with
  | Some c => if String.eqb c "" then None else Some c
  | None => None
  end.

(** The plotly express call of each branch (tem.py:179-189). *)
Definition custom_plot (df : DataFrame) (kind : plot_kind)
  (x_axis y_axis : string) (color : option string) (pie_values : string)
  : figure :=
  match kind with
  | Scatter => PxScatter df x_axis y_axis (color_arg color) (y_axis ++ " vs " ++ x_axis)
  | Line => PxLine df x_axis y_axis (color_arg color) (y_axis ++ " over " ++ x_axis)
  | Bar => PxBar df x_axis y_axis (color_arg color) (y_axis ++ " by " ++ x_axis)
  | Pie => PxPie df x_axis pie_values ("Distribution of " ++ pie_values)
  | Histogram => PxHistogram df x_axis (color_arg color) ("Histogram of " ++ x_axis) 20
  end.

Definition part4 (df : DataFrame) (w : Widgets) : M unit :=
  emit (SidebarHeader "Visualization Options");;
  let* plot_type :=
    selectbox "Select Plot Type"
      [seq Some (VStr (plot_label k)) | k <- [:: Scatter; Line; Bar; Pie; Histogram]]
      (plot_type w) in
  let* x_axis := selectbox "Select X-Axis" (column_options df) (x_axis w) in
  let* y_axis := selectbox "Select Y-Axis" (column_options df) (y_axis w) in
  let* color := selectbox "Select Color (Optional)" (None :: column_options df) (color w) in
  emit (Header ("Custom " ++ plot_label plot_type));;
  let* pie_values :=
    if plot_type is Pie
    then selectbox "Select Values for Pie" (column_options df) (pie_values w)
    else ret (pie_values w) in
  emit (PlotlyChart (custom_plot df plot_type x_axis y_axis color pie_values)).

(** ** The whole script *)

Definition page_title : string :=
  "Comprehensive Dashboard for Climate Data and Crop Yield Suggestions".

(** tem.py:42-45: the parsed file with its column names normalized. *)
Definition load (raw : DataFrame) : DataFrame :=
  mkDF (Names.normalize_columns (columns raw)) (rows raw).

(** tem.py:55-192: filtering, then the four parts in order. *)
Definition analysis (df : DataFrame)
  (selected_country selected_year : option value) (w : Widgets) : M unit :=
  let* filtered_df := apply_filters df selected_country selected_year in
  part1 filtered_df;;
  part2 df;;
  let* df := part3 df selected_country selected_year in
  part4 df w.

Definition dashboard (uploaded_file : option DataFrame) (w : Widgets) : M unit :=
  emit StyleSheet;;
  emit (Title page_title);;
  emit (FileUploader "Upload your CSV file");;
  if uploaded_file is Some raw then
    let df := load raw in
    emit (SidebarHeader "Filters");;
    let* country := getitem df "country" in
    let* unique_countries := py_sorted (unique country) in
    let* selected_country :=
      selectbox "Select Country" (None :: map Some unique_countries)
        (selected_country w) in
    let* year := getitem df "year" in
    let* unique_years := py_sorted (unique year) in
    let* selected_year :=
      selectbox "Select Year" (None :: map Some unique_years)
        (selected_year w) in
    analysis df selected_country selected_year w
  else
    emit (Info "Please upload a CSV file to proceed.").

(** ** Reference notions the properties are stated against *)

(** Strict and weak comparison of a mean with a threshold, as propositions;
    a NaN mean satisfies neither. *)
Definition above (x : number) (c : Q) : Prop :=
  if x is Fin q then Qlt c q else False.

Definition at_most (x : number) (c : Q) : Prop :=
  if x is Fin q then Qle q c else False.


(** What Part 1 shows for given means and category. *)
Definition recommendation_log (t c : number) (k : crop) : seq element :=
  [:: Header "Part 1: Predicted Temperature, CO2, and Crop Yield Suggestions";
      WriteFixed2 "**Predicted Temperature Anomaly:** " t "°C";
      WriteFixed2 "**Predicted Average CO2 Level:** " c " ppm";
      Subheader "Suggested Crop to Yield";
      WriteText (suggestion_text k) ].

(** What Part 1 shows when there is nothing to average. *)
Definition no_data_log : seq element :=
  [:: Header "Part 1: Predicted Temperature, CO2, and Crop Yield Suggestions";
      Warning no_data_warning ].

(** An element that reports a statistic or a suggestion. *)
Definition shows_recommendation (e : element) : bool :=
  match e with
  | WriteFixed2 _ _ _ | WriteText _ => true
  | _ => false
  end.

(** Manual summation over the rows of a table: an accumulator run over the
    rows from first to last, reading the cell of column [name]. *)
Definition manual_sum (df : DataFrame) (name : string) : Q :=
  foldl (fun acc r => (acc + nan_to_zero (cell (column_index df name) r))%Q)
        0%Q (rows df).

(** The arithmetic mean over the rows: sum divided by row count. *)
Definition manual_mean (df : DataFrame) (name : string) : Q :=
  (manual_sum df name / Qcount (size (rows df)))%Q.

(** The finite cells of a column. *)
Definition present (col : seq value) : seq Q :=
  pmap (fun v => if v is VNum (Fin q) then Some q else None) col.

Definition is_fin (v : value) : bool :=
  if v is VNum (Fin _) then true else false.

(** A filter that is set constrains the cell; an unset one accepts it. *)
Definition satisfies (sel : option value) (v : value) : bool :=
  if sel is Some w then py_eq v w else true.

(** The rows a selection asks for, by exact equality on [country] and
    [year]. *)
Definition selected_rows (df : DataFrame) (sc sy : option value)
  : seq (seq value) :=
  [seq r <- rows df |
     satisfies sc (cell (column_index df "country") r)
     && satisfies sy (cell (column_index df "year") r)].

(** [s1] is [s2] with some elements left out, the others in their order. *)
Definition subsequence {T} (s1 s2 : seq T) : Prop :=
  exists2 m : seq bool, size m = size s2 & s1 = mask m s2.

(** Every row holds one cell per column. *)
Definition rectangular (df : DataFrame) : bool :=
  all (fun r => size r == size (columns df)) (rows df).

(** A selection the sidebar can return: unset, or a value of the column. *)
Definition valid_selection (df : DataFrame) (name : string)
  (sel : option value) : Prop :=
  match sel with
  | None => True
  | Some v => List.In v (column df name)
  end.

(** The selection a filter really applies: a falsy choice applies none. *)
Definition effective (sel : option value) : option value :=
  if truthy sel then sel else None.

(** [df.dropna(subset=[name])]: the rows whose cell in [name] is present. *)
Definition drop_missing (df : DataFrame) (name : string) : DataFrame :=
  mkDF (columns df) [seq r <- rows df | notna (cell (column_index df name) r)].

(** What the page holds once the file is loaded and before any column is
    read. *)
Definition preamble : seq element :=
  [:: StyleSheet; Title page_title; FileUploader "Upload your CSV file";
      SidebarHeader "Filters" ].

(** The option list of a filter selectbox: [[None] + sorted(unique)]. *)
Definition filter_options (df : DataFrame) (name : string)
  : seq (option value) :=
  None :: [seq Some v | v <- sort py_le (unique (column df name))].



(** The sidebar controls and the header of Part 4, for a plot kind. *)
Definition custom_plot_controls (df : DataFrame) (kind : plot_kind)
  : seq element :=
  [:: SidebarHeader "Visualization Options";
      Selectbox "Select Plot Type"
        [:: Some (VStr "Scatter Plot"); Some (VStr "Line Chart");
            Some (VStr "Bar Chart"); Some (VStr "Pie Chart");
            Some (VStr "Histogram") ];
      Selectbox "Select X-Axis" (column_options df);
      Selectbox "Select Y-Axis" (column_options df);
      Selectbox "Select Color (Optional)" (None :: column_options df);
      Header ("Custom " ++ plot_label kind) ].

(** ** Sample tables *)

Definition climate_columns : seq string :=
  [:: "country"; "year"; "temperature_anomaly"; "average_co2" ].

Definition record (country : string) (year t c : Q) : seq value :=
  [:: VStr country; VNum (Fin year); VNum (Fin t); VNum (Fin c) ].

Definition sample : DataFrame :=
  mkDF climate_columns
    [:: record "India" 2000 1.0 370;
        record "India" 2001 2.0 410;
        record "Brazil" 2000 0.5 380 ].

(** One row lacks its temperature. *)
Definition sample_gap : DataFrame :=
  mkDF climate_columns
    [:: record "India" 2000 3.0 370;
        [:: VStr "India"; VNum (Fin 2001); VNum NaN; VNum (Fin 410) ] ].


(** A table holding the year 0. *)
Definition sample_year0 : DataFrame :=
  mkDF climate_columns
    [:: record "India" 0 1.0 370;
        record "India" 1 2.0 410 ].




Definition sample_widgets : Widgets :=
  mkWidgets None None Scatter "country" "year" None "year".

(** ** Further notions *)

(** An ASCII capital letter. *)
Definition is_upper (c : ascii) : bool :=
  let n := nat_of_ascii c in (65 <= n) && (n <= 90).

Fixpoint sall (p : ascii -> bool) (s : string) : bool :=
  if s is String c s' then p c && sall p s' else true.

(** A name in normal form: no whitespace at either end, no space and no
    capital letter inside. *)
Definition canonical_char (c : ascii) : bool :=
  ~~ Ascii.eqb c " "%char && ~~ is_upper c.

Definition canonical_name (s : string) : bool :=
  [&& Names.lclean s, Names.rclean s & sall canonical_char s].

(** A code point below 128, the range on which the model of [strip] and
    [lower] is Python's. *)
Definition is_ascii (c : ascii) : bool := nat_of_ascii c < 128.

Definition is_nan (x : number) : bool := if x is NaN then true else false.

(** The texts of the headers on a page, in order. *)
Definition header_texts (log : seq element) : seq string :=
  pmap (fun e => if e is Header text then Some text else None) log.

(** A table every read of the script succeeds on: the four columns are
    there, the values of each filter column can be sorted, and the two value
    columns hold no string. *)
Definition well_formed (df : DataFrame) : bool :=
  [&& has_column df "country", has_column df "year",
      has_column df "temperature_anomaly", has_column df "average_co2",
      ~~ mixed_kinds (unique (column df "country")),
      ~~ mixed_kinds (unique (column df "year")),
      ~~ has is_str (column df "temperature_anomaly")
    & ~~ has is_str (column df "average_co2") ].

(** What Part 2 shows on a table with its three columns. *)
Definition part2_log (df : DataFrame) : seq element :=
  [:: Header "Part 2: Temperature and CO2 Levels Over Time (Entire Dataset)";
      if empty df
      then Warning "No data available to display the dual-axis plot. Please upload a dataset."
      else PlotlyChart
             (DualAxis (column df "year") (column df "temperature_anomaly")
                (column df "average_co2")) ].

(** Values of one kind that Python orders totally: all strings, or all
    numbers with no NaN. *)
Definition comparable (vals : seq value) : bool :=
  all is_str vals || all is_fin vals.

(** No two names are the same. *)
Definition distinct_names (cols : seq string) : bool :=
  pairwise (fun a b => ~~ String.eqb a b) cols.

(** A parsed file whose header the model reads as pandas does: the names
    are ASCII, so that [strip] and [lower] are Python's, and normalization
    merges no two of them, so that [df[name]] is one column. *)
Definition faithful_headers (raw : DataFrame) : bool :=
  all (sall is_ascii) (columns raw) && distinct_names (columns (load raw)).

(** The array [Series.mean()] sums: the column with every missing cell
    replaced by zero. *)
Definition zero_filled (col : seq value) : seq Q :=
  [seq nan_to_zero v | v <- col].

(** The numbers of column [name], one per row of the table, in row order. *)
Definition row_values (df : DataFrame) (name : string) : seq Q :=
  [seq nan_to_zero (cell (column_index df name) r) | r <- rows df].

Definition is_missing (v : value) : bool := ~~ notna v.

(** ** Part 1 under the library's float64 arithmetic

    [Series.mean()] adds and divides in float64; how the additions are
    ordered and rounded is the library's business.  Here the two operations
    are parameters: [fsum] is the float64 sum the library returns for an
    array of doubles, [fdiv] the float64 quotient of that sum by a count.
    Nothing is assumed about them.  A result that overflows to an infinity
    has no counterpart in [number]. *)

Section LibraryArithmetic.

Variable fsum : seq Q -> number.
Variable fdiv : number -> nat -> number.

(** [Series.mean()], [skipna=True]: missing cells are zeroed in the array
    that is summed and left out of the count; NaN when nothing is counted. *)
Definition series_mean_with (col : seq value) : M number :=
  if has is_str col then raise TypeError
  else
    let n := count notna col in
    if n == 0 then ret NaN
    else ret (fdiv (fsum (zero_filled col)) n).

Definition column_mean_with (df : DataFrame) (name : string) : M number :=
  let* col := getitem df name in
  series_mean_with col.

(** tem.py:63-81, as [part1], with the means taken in float64. *)
Definition part1_with (filtered_df : DataFrame) : M unit :=
  emit (Header "Part 1: Predicted Temperature, CO2, and Crop Yield Suggestions");;
  if ~~ empty filtered_df then
    let* predicted_temp := column_mean_with filtered_df "temperature_anomaly" in
    let* predicted_co2 := column_mean_with filtered_df "average_co2" in
    emit (WriteFixed2 "**Predicted Temperature Anomaly:** " predicted_temp "°C");;
    emit (WriteFixed2 "**Predicted Average CO2 Level:** " predicted_co2 " ppm");;
    emit (Subheader "Suggested Crop to Yield");;
    emit (WriteText (suggestion_text (crop_suggestion predicted_temp predicted_co2)))
  else
    emit (Warning no_data_warning).

(** What skipping the missing cells of column [name] means for a mean [m]:
    [m] is the library's quotient of the sum of the zero-filled column by
    the number of present cells (NaN when there is none); in exact terms
    that array sums to the sum of the present values; the present and the
    missing cells together are the rows; and dropping the rows whose cell
    is missing leaves the present values as they are. *)
Definition skips_missing (df : DataFrame) (name : string) (m : number) : Prop :=
  let col := column df name in
  [/\ m = (if present col is [::] then NaN
           else fdiv (fsum (zero_filled col)) (size (present col))),
      Qeq (Qsum (zero_filled col)) (Qsum (present col)),
      size (present col) + count is_missing col = size (rows df)
    & present (column (drop_missing df name) name) = present col ].

End LibraryArithmetic.

(** Exact rational arithmetic, the instance in which [part1] evaluates. *)
Definition exact_sum (s : seq Q) : number := Fin (Qsum s).

Definition exact_div (x : number) (n : nat) : number :=
  if x is Fin q then Fin (q / Qcount n)%Q else NaN.

(** Case analysis on the 256 characters. *)
Ltac each_ascii c := case: c => [] [] [] [] [] [] [] [] [].

(** * Properties *)

(** ** Column-name normalization *)

Section Normalization.

Import Names.

Lemma canon_not_space c : ~~ isspace c -> ~~ isspace (canon c).
Proof. by each_ascii c. Qed.

Lemma canon_idem c : canon (canon c) = canon c.
Proof. by each_ascii c. Qed.

Lemma smap_comp f g s : smap f (smap g s) = smap (fun c => f (g c)) s.
Proof. by elim: s => [|c s IH] //=; rewrite IH. Qed.

Lemma eq_smap f g s : (forall c, f c = g c) -> smap f s = smap g s.
Proof. by move=> fg; elim: s => [|c s IH] //=; rewrite fg IH. Qed.

Lemma normalize_canon s : normalize s = smap canon (strip s).
Proof. by rewrite /normalize /lower /replace_space smap_comp. Qed.

Lemma lclean_lstrip s : lclean (lstrip s).
Proof. by elim: s => [|c s IH] //=; case E: (isspace c) => //=; rewrite E. Qed.

Lemma rclean_rstrip s : rclean (rstrip s).
Proof.
elim: s => [|c s IH] //=.
case E: (rstrip s) IH => [|d r] /=; last by [].
by case F: (isspace c) => //=; rewrite F.
Qed.

Lemma lclean_rstrip s : lclean s -> lclean (rstrip s).
Proof.
case: s => [|c s] //= /negbTE F.
by case: (rstrip s) => [|d r]; rewrite /lclean /= ?F /= ?F.
Qed.

Lemma lstrip_clean s : lclean s -> lstrip s = s.
Proof. by case: s => [|c s] //= /negbTE ->. Qed.

Lemma rstrip_clean s : rclean s -> rstrip s = s.
Proof.
elim: s => [|c s IH] //=.
case: s IH => [|d s] IH; first by move/negbTE => ->.
by move=> H; rewrite (IH H).
Qed.

Lemma lclean_smap s : lclean s -> lclean (smap canon s).
Proof. by case: s => [|c s] //=; exact: canon_not_space. Qed.

Lemma rclean_smap s : rclean s -> rclean (smap canon s).
Proof.
elim: s => [|c s IH] //=.
by case: s IH => [|d s] IH //=; exact: canon_not_space.
Qed.

Lemma strip_clean s : lclean s -> rclean s -> strip s = s.
Proof. by move=> L R; rewrite /strip (lstrip_clean L) (rstrip_clean R). Qed.

Lemma normalize_idempotent s : normalize (normalize s) = normalize s.
Proof.
rewrite !normalize_canon (@strip_clean (smap canon (strip s))).
- by apply: lclean_smap; apply: lclean_rstrip; exact: lclean_lstrip.
- by apply: rclean_smap; exact: rclean_rstrip.
- by rewrite smap_comp; apply: eq_smap => c; exact: canon_idem.
Qed.

End Normalization.

Example normalize_average_co2 :
  Names.normalize "  Average CO2 " = "average_co2".
Proof. by []. Qed.

Example normalize_headers :
  Names.normalize_columns [:: "Country"; " Year"; "Temperature Anomaly" ]
  = [:: "country"; "year"; "temperature_anomaly" ].
Proof. by []. Qed.

(** C7. Normalizing column names (trim, spaces to underscores, lowercase)
    is idempotent: normalizing an already normalized list of names gives the
    same list, and so does reloading a table whose names are normalized. *)
Theorem normalize_columns_idempotent (cols : seq string) :
  Names.normalize_columns (Names.normalize_columns cols)
  = Names.normalize_columns cols.
Proof.
rewrite /Names.normalize_columns -map_comp.
by apply: eq_map => s /=; exact: normalize_idempotent.
Qed.

(** ** The script monad *)

Section MonadLaws.

Variables A B : Type.

Lemma bind_ret (a : A) (k : A -> M B) : bind (ret a) k = k a.
Proof. by rewrite /bind /ret; case: (k a). Qed.

Lemma bind_raise (e : error) (k : A -> M B) : bind (raise e) k = raise e.
Proof. by []. Qed.

Lemma bind_emit (e : element) (k : unit -> M B) :
  bind (emit e) k = (e :: log_of (k tt), result_of (k tt)).
Proof. by rewrite /bind /emit /log_of /result_of; case: (k tt). Qed.

End MonadLaws.

Lemma getitem_column df name :
  has_column df name -> getitem df name = ret (column df name).
Proof. by rewrite /getitem => ->. Qed.


(** ** Part 1 *)

Lemma part1_empty df : empty df -> part1 df = (no_data_log, Done tt).
Proof. by rewrite /part1 => ->. Qed.

Lemma part1_means df t c :
  ~~ empty df ->
  column_mean df "temperature_anomaly" = ret t ->
  column_mean df "average_co2" = ret c ->
  part1 df = (recommendation_log t c (crop_suggestion t c), Done tt).
Proof. by rewrite /part1 => -> /= -> ->. Qed.

(** C3. When the filter selection leaves no row, Part 1 shows the explicit
    no-data warning and nothing else: it ends normally without reading a
    column or evaluating a mean, whatever the table's columns hold, so no
    zero or NaN recommendation is written; the script then goes on with the
    other parts. *)
Theorem empty_selection_gives_no_data (df filtered_df : DataFrame)
    (sc sy : option value) (w : Widgets) :
  apply_filters df sc sy = ret filtered_df ->
  rows filtered_df = [::] ->
  [/\ part1 filtered_df = (no_data_log, Done tt),
      ~~ has shows_recommendation (log_of (part1 filtered_df))
    & exists rest : M unit,
        analysis df sc sy w
        = ((no_data_log ++ log_of rest)%SEQ, result_of rest) ].
Proof.
move=> F E.
have H : empty filtered_df by rewrite /empty E.
split; try by rewrite (part1_empty H).
exists (part2 df;; let* df' := part3 df sc sy in part4 df' w).
rewrite /analysis F bind_ret (part1_empty H) /log_of /result_of.
by rewrite {1}/bind; case: (bind _ _).
Qed.

Lemma empty_selection_gives_no_data_witness :
  apply_filters sample (Some (VStr "Chile")) None = ret (mkDF climate_columns [::])
  /\ part1 (mkDF climate_columns [::]) = (no_data_log, Done tt).
Proof.
split; first by [].
by have [] := @empty_selection_gives_no_data sample (mkDF climate_columns [::])
                (Some (VStr "Chile")) None sample_widgets.
Defined.

(** *** Classification *)

Lemma gtP x c : reflect (above x c) (gt x c).
Proof.
case: x => [q|] /=; last by constructor.
case E: (Qle_bool q c); constructor.
- by move/Qle_bool_iff: E => E; exact: Qle_not_lt.
- apply: Qnot_le_lt => /Qle_bool_iff; by rewrite E.
Qed.

Lemma leP x c : reflect (at_most x c) (le x c).
Proof.
case: x => [q|] /=; last by constructor.
by apply: (iffP idP) => /Qle_bool_iff.
Qed.







(** ** Filter engine *)

Lemma eta_df df : mkDF (columns df) (rows df) = df.
Proof. by case: df. Qed.

Lemma mask_series_eq df name sel :
  mask (series_eq (column df name) sel) (rows df)
  = [seq r <- rows df | eq_selection sel (cell (column_index df name) r)].
Proof. by rewrite /series_eq /column -map_comp -filter_mask. Qed.

Lemma satisfies_effective sel v :
  satisfies (effective sel) v = if truthy sel then eq_selection sel v else true.
Proof. by rewrite /effective; case: sel => [w|] //; case: (truthy (Some w)). Qed.

(** One filtering step, as written twice in [apply_filters] and once for
    the map. *)
Lemma filter_step df name sel :
  has_column df name ->
  (if truthy sel
   then let* col := getitem df name in
        ret (boolean_index df (series_eq col sel))
   else ret df)
  = ret (mkDF (columns df)
           [seq r <- rows df
              | satisfies (effective sel) (cell (column_index df name) r)]).
Proof.
move=> H.
have E : (fun r => satisfies (effective sel) (cell (column_index df name) r))
         =1 (fun r => if truthy sel
                      then eq_selection sel (cell (column_index df name) r)
                      else true)
  by move=> r; exact: satisfies_effective.
rewrite (eq_filter E); case: (truthy sel).
- by rewrite (getitem_column H) bind_ret /boolean_index mask_series_eq.
- by rewrite filter_predT eta_df.
Qed.

Lemma apply_filters_effective df sc sy :
  has_column df "country" -> has_column df "year" ->
  apply_filters df sc sy
  = ret (mkDF (columns df) (selected_rows df (effective sc) (effective sy))).
Proof.
move=> Hc Hy; rewrite /apply_filters (filter_step sc Hc) bind_ret.
rewrite (@filter_step (mkDF _ _) "year" sy Hy) /= /selected_rows -filter_predI.
by congr (ret (mkDF _ _)); apply: eq_filter => r /=; rewrite andbC.
Qed.

Lemma In_filter (T : Type) (p : pred T) (s : seq T) (x : T) :
  List.In x (filter p s) -> List.In x s.
Proof.
elim: s => [|y s IH] //=; case: (p y) => /=; last by right; exact: IH.
by case=> [->|H]; [left | right; exact: IH].
Qed.

Lemma filter_subsequence (T : Type) (p : pred T) (s : seq T) :
  subsequence (filter p s) s.
Proof. by exists (map p s); rewrite ?size_map ?filter_mask. Qed.

(** C4. The code departs from the claim at a selectable value that is
    falsy.  The year 0 occurs in the table below, so it is a valid
    selection; with it selected the rows asked for are those of year 0, yet
    the guard [if selected_year:] skips the filter and the whole table comes
    back. *)
Lemma year_zero_filter_keeps_every_row :
  [/\ valid_selection sample_year0 "country" None,
      valid_selection sample_year0 "year" (Some (VNum (Fin 0))),
      apply_filters sample_year0 None (Some (VNum (Fin 0))) = ret sample_year0,
      selected_rows sample_year0 None (Some (VNum (Fin 0)))
      = [:: record "India" 0 1.0 370 ]
    & rows sample_year0
      <> selected_rows sample_year0 None (Some (VNum (Fin 0))) ].
Proof. by split=> //; left. Qed.

(** X17. For every selection, falsy values included, on a table with the two
    filter columns, [apply_filters] returns without emitting anything a
    table with the same columns whose rows are input rows in input order:
    exactly the rows equal to the selections that are truthy.  There are no
    more of them than input rows, and with both filters unset the table
    comes back unchanged. *)
Theorem apply_filters_ordered_subset (df : DataFrame) (sc sy : option value) :
  has_column df "country" -> has_column df "year" ->
  exists filtered_df,
    [/\ apply_filters df sc sy = ret filtered_df,
        columns filtered_df = columns df,
        rows filtered_df = selected_rows df (effective sc) (effective sy),
        subsequence (rows filtered_df) (rows df)
      & [/\ forall r, List.In r (rows filtered_df) -> List.In r (rows df),
            size (rows filtered_df) <= size (rows df)
          & sc = None -> sy = None -> filtered_df = df ] ].
Proof.
move=> Hc Hy.
exists (mkDF (columns df) (selected_rows df (effective sc) (effective sy))).
split=> //=.
- exact: apply_filters_effective.
- exact: filter_subsequence.
- split; first by move=> r; exact: In_filter.
  + by rewrite size_filter count_size.
  + by move=> -> ->; rewrite /selected_rows /= filter_predT eta_df.
Qed.

Lemma apply_filters_ordered_subset_witness :
  exists filtered_df,
    apply_filters sample (Some (VStr "India")) (Some (VNum (Fin 2001)))
    = ret filtered_df
    /\ rows filtered_df = [:: record "India" 2001 2.0 410 ].
Proof.
have Hc : has_column sample "country" by [].
have Hy : has_column sample "year" by [].
case: (@apply_filters_ordered_subset sample (Some (VStr "India"))
         (Some (VNum (Fin 2001))) Hc Hy) => f [E _ R _ _].
by exists f; split; [exact: E | rewrite R].
Defined.

(** C9. A falsy selection - the year 0, the empty country, or any other
    choice whose truth value is false - is handled exactly as an unset
    filter, on every table, whether or not the value occurs in it: the
    filtered table and the rows taken for the map are those obtained with
    the filter unset. *)
Theorem falsy_selection_is_unset (df : DataFrame) (sc sy fc fy : option value) :
  truthy fc = false -> truthy fy = false ->
  [/\ truthy (Some (VStr "")) = false /\ truthy (Some (VNum (Fin 0))) = false,
      apply_filters df fc sy = apply_filters df None sy,
      apply_filters df sc fy = apply_filters df sc None,
      apply_filters df fc fy = ret df
    & select_map_rows df fy = select_map_rows df None
      /\ select_map_rows df fy = ret df ].
Proof.
move=> Fc Fy; split=> //.
- by rewrite /apply_filters Fc.
- by rewrite /apply_filters Fy.
- by rewrite /apply_filters Fc bind_ret Fy.
- by rewrite /select_map_rows Fy.
Qed.

Lemma falsy_selection_is_unset_witness :
  [/\ truthy (Some (VStr "")) = false,
      truthy (Some (VNum (Fin 0))) = false,
      List.In (VNum (Fin 0)) (column sample_year0 "year"),
      apply_filters sample_year0 (Some (VStr "")) (Some (VNum (Fin 0)))
      = ret sample_year0
    & select_map_rows sample_year0 (Some (VNum (Fin 0))) = ret sample_year0 ].
Proof.
have Fc : truthy (Some (VStr "")) = false by [].
have Fy : truthy (Some (VNum (Fin 0))) = false by [].
case: (falsy_selection_is_unset sample_year0 None None Fc Fy) => _ _ _ A [_ B].
by split=> //; left.
Defined.

(** ** Means *)

Lemma series_mean_numeric col :
  ~~ has is_str col ->
  series_mean col
  = ret (if count notna col == 0 then NaN
         else Fin (series_sum col / Qcount (count notna col))%Q).
Proof. by rewrite /series_mean => /negbTE ->; case: (count notna col == 0). Qed.

Lemma fin_not_str col : all is_fin col -> ~~ has is_str col.
Proof. by rewrite -all_predC; apply: sub_all; case=> [s|[q|]]. Qed.

Lemma fin_count col : all is_fin col -> count notna col = size col.
Proof.
move=> H; apply/eqP; rewrite -all_count.
by apply: sub_all H; case=> [s|[q|]].
Qed.

(** C2 as stated fails when a cell is missing: the row still counts as a
    row of the filtered table, but the predicted value divides by the number
    of present cells.  Here the temperature column sums to 3 over two rows
    and is divided by 1, whatever the float64 sum and quotient are; the
    manual mean is 3/2 and the predicted temperature is 3, both exact in
    float64. *)
Lemma predicted_mean_is_not_over_row_count :
  [/\ ~~ empty sample_gap,
      size (rows sample_gap) = 2,
      forall (fsum : seq Q -> number) (fdiv : number -> nat -> number),
        let t := fdiv (fsum (row_values sample_gap "temperature_anomaly")) 1 in
        let c := fdiv (fsum (row_values sample_gap "average_co2")) 2 in
        part1_with fsum fdiv sample_gap
        = (recommendation_log t c (crop_suggestion t c), Done tt),
      part1 sample_gap
      = (recommendation_log (Fin 3.0) (Fin (780 # 2)) Rice, Done tt)
    & manual_mean sample_gap "temperature_anomaly" = (30 # 20)%Q
      /\ ~ Qeq 3.0 (manual_mean sample_gap "temperature_anomaly") ].
Proof. by split. Qed.

Lemma part1_with_means fsum fdiv df t c :
  ~~ empty df ->
  column_mean_with fsum fdiv df "temperature_anomaly" = ret t ->
  column_mean_with fsum fdiv df "average_co2" = ret c ->
  part1_with fsum fdiv df
  = (recommendation_log t c (crop_suggestion t c), Done tt).
Proof. by rewrite /part1_with => -> /= -> ->. Qed.

Lemma part1_exact df : part1 df = part1_with exact_sum exact_div df.
Proof. by []. Qed.

Lemma zero_filled_column df name :
  zero_filled (column df name) = row_values df name.
Proof. by rewrite /zero_filled /column /row_values -map_comp. Qed.

Lemma column_mean_with_complete fsum fdiv df name m :
  ~~ empty df -> all is_fin (column df name) ->
  column_mean_with fsum fdiv df name = ret m ->
  m = fdiv (fsum (row_values df name)) (size (rows df)).
Proof.
rewrite /empty negb_or => /andP [/negbTE NE _] F.
rewrite /column_mean_with /getitem; case: (has_column df name) => //.
rewrite bind_ret /series_mean_with (negbTE (fin_not_str F)) (fin_count F).
by rewrite size_map NE zero_filled_column => -[<-].
Qed.

(** C2, amended. For a non-empty filtered table on which both means are
    computed, Part 1 writes them as the predictions; and when no
    [temperature_anomaly] cell of the table is missing, the predicted
    temperature is the library's float64 sum of that column over exactly the
    rows of the table, one number per row, divided by the row count.  The
    predicted CO2 is the same mean of [average_co2] when no [average_co2]
    cell is missing.  Each column stands on its own condition, and nothing is
    assumed of the float64 sum and quotient. *)
Theorem predicted_means_over_rows (fsum : seq Q -> number)
    (fdiv : number -> nat -> number) (filtered_df : DataFrame)
    (t c : number) :
  ~~ empty filtered_df ->
  column_mean_with fsum fdiv filtered_df "temperature_anomaly" = ret t ->
  column_mean_with fsum fdiv filtered_df "average_co2" = ret c ->
  [/\ part1_with fsum fdiv filtered_df
      = (recommendation_log t c (crop_suggestion t c), Done tt),
      all is_fin (column filtered_df "temperature_anomaly") ->
      t = fdiv (fsum (row_values filtered_df "temperature_anomaly"))
               (size (rows filtered_df))
    & all is_fin (column filtered_df "average_co2") ->
      c = fdiv (fsum (row_values filtered_df "average_co2"))
               (size (rows filtered_df)) ].
Proof.
move=> NE Ht Hc; split.
- exact: part1_with_means.
- by move=> F; exact: column_mean_with_complete Ht.
- by move=> F; exact: column_mean_with_complete Hc.
Qed.

Lemma predicted_means_over_rows_witness :
  [/\ ~~ empty sample_gap,
      all is_fin (column sample_gap "average_co2"),
      ~~ all is_fin (column sample_gap "temperature_anomaly"),
      part1_with exact_sum exact_div sample_gap
      = (recommendation_log (Fin 3.0) (Fin (780 # 2)) Rice, Done tt)
    & Fin (780 # 2)
      = exact_div (exact_sum (row_values sample_gap "average_co2")) 2 ].
Proof.
have NE : ~~ empty sample_gap by [].
have Ht : column_mean_with exact_sum exact_div sample_gap "temperature_anomaly"
          = ret (Fin 3.0) by [].
have Hc : column_mean_with exact_sum exact_div sample_gap "average_co2"
          = ret (Fin (780 # 2)) by [].
case: (predicted_means_over_rows NE Ht Hc) => P _ /(_ isT) C.
by split.
Defined.

(** *** Missing cells *)

Lemma count_present col :
  ~~ has is_str col -> count notna col = size (present col).
Proof.
by elim: col => [|[s|[q|]] col IH] //= H; rewrite IH.
Qed.

Lemma sum_present col :
  ~~ has is_str col -> Qeq (series_sum col) (Qsum (present col)).
Proof.
rewrite /series_sum.
elim: col => [|[s|[q|]] col IH] //= H.
- by apply: Qplus_comp; [exact: Qeq_refl | exact: IH].
- by apply: Qeq_trans (Qplus_0_l _) _; exact: IH.
Qed.

Lemma present_dropna col : present (dropna col) = present col.
Proof. by rewrite /present /dropna; elim: col => [|[s|[q|]] col IH] //=; rewrite IH. Qed.

Lemma column_drop_missing df name :
  column (drop_missing df name) name = dropna (column df name).
Proof. by rewrite /column /dropna /drop_missing /= filter_map. Qed.

Lemma series_mean_with_present fsum fdiv col :
  ~~ has is_str col ->
  series_mean_with fsum fdiv col
  = ret (if present col is [::] then NaN
         else fdiv (fsum (zero_filled col)) (size (present col))).
Proof.
move=> S; rewrite /series_mean_with (negbTE S) (count_present S).
by case: (present col).
Qed.

Lemma skips_missing_column fsum fdiv df name :
  ~~ has is_str (column df name) ->
  skips_missing fsum fdiv df name
    (if present (column df name) is [::] then NaN
     else fdiv (fsum (zero_filled (column df name)))
               (size (present (column df name)))).
Proof.
move=> S; split=> //.
- exact: sum_present.
- have -> : size (rows df) = size (column df name) by rewrite size_map.
  by rewrite -(count_present S); exact: (count_predC notna).
- by rewrite column_drop_missing present_dropna.
Qed.

(** C10. The means of Part 1 skip missing cells.  On a non-empty filtered
    table whose two value columns hold numbers and missing cells, Part 1
    rejects nothing: it ends normally and writes a prediction for each
    column.  Each prediction is the library's float64 quotient of the sum
    of the column, its missing cells zeroed, by the number of present cells
    (NaN when no cell is present); that array sums, in exact terms, to the
    sum of the present values; the divisor is the row count less the missing
    cells; and the rows whose cell is missing can be dropped without changing
    the present values. *)
Theorem mean_skips_missing (fsum : seq Q -> number)
    (fdiv : number -> nat -> number) (filtered_df : DataFrame) :
  ~~ empty filtered_df ->
  has_column filtered_df "temperature_anomaly" ->
  has_column filtered_df "average_co2" ->
  ~~ has is_str (column filtered_df "temperature_anomaly") ->
  ~~ has is_str (column filtered_df "average_co2") ->
  exists t c : number,
    [/\ part1_with fsum fdiv filtered_df
        = (recommendation_log t c (crop_suggestion t c), Done tt),
        skips_missing fsum fdiv filtered_df "temperature_anomaly" t
      & skips_missing fsum fdiv filtered_df "average_co2" c ].
Proof.
move=> NE Ht Hc St Sc; do 2!eexists; split; last first.
- exact: skips_missing_column Sc.
- exact: skips_missing_column St.
- apply: part1_with_means => //; rewrite /column_mean_with.
  + by rewrite (getitem_column Ht) bind_ret series_mean_with_present.
  + by rewrite (getitem_column Hc) bind_ret series_mean_with_present.
Qed.

Lemma mean_skips_missing_witness :
  exists t c : number,
    [/\ part1_with exact_sum exact_div sample_gap
        = (recommendation_log t c (crop_suggestion t c), Done tt),
        t = Fin 3.0,
        present (column sample_gap "temperature_anomaly") = [:: 3.0%Q ]
      & size (rows sample_gap) = 2 ].
Proof.
have NE : ~~ empty sample_gap by [].
have Ht : has_column sample_gap "temperature_anomaly" by [].
have Hc : has_column sample_gap "average_co2" by [].
have St : ~~ has is_str (column sample_gap "temperature_anomaly") by [].
have Sc : ~~ has is_str (column sample_gap "average_co2") by [].
case: (mean_skips_missing exact_sum exact_div NE Ht Hc St Sc)
  => t [c [P [Et _ _ _] _]].
by exists t, c; split.
Defined.

(** ** Map data *)

Lemma select_map_rows_effective df sy :
  has_column df "year" ->
  select_map_rows df sy
  = ret (mkDF (columns df)
           [seq r <- rows df
              | satisfies (effective sy) (cell (column_index df "year") r)]).
Proof. by move=> H; rewrite /select_map_rows (filter_step sy H). Qed.

Lemma all_filter_keep (T : Type) (a p : pred T) (s : seq T) :
  all a s -> all a (filter p s).
Proof.
by elim: s => [|x s IH] //= /andP [ax /IH A]; case: (p x) => //=; rewrite ax.
Qed.

Section SetColumn.

Variable n : nat.

Lemma overwrite_read (rs : seq (seq value)) (labels : seq value) (i : nat) :
  size labels = size rs ->
  [seq cell i (set_nth (VNum NaN) rv.1 i rv.2) | rv <- zip rs labels] = labels.
Proof.
elim: rs labels => [|r rs IH] [|l labels] //= [S].
by rewrite (IH _ S) /cell nth_set_nth /= eqxx.
Qed.

Lemma overwrite_other (rs : seq (seq value)) (labels : seq value) (i j : nat) :
  size labels = size rs -> j != i ->
  [seq cell j (set_nth (VNum NaN) rv.1 i rv.2) | rv <- zip rs labels]
  = [seq cell j r | r <- rs].
Proof.
move=> S /negbTE ji; elim: rs labels S => [|r rs IH] [|l labels] //= [S].
by rewrite (IH _ S) /cell nth_set_nth /= ji.
Qed.

Lemma append_read (rs : seq (seq value)) (labels : seq value) :
  all (fun r => size r == n) rs -> size labels = size rs ->
  [seq cell n (rcons rv.1 rv.2) | rv <- zip rs labels] = labels.
Proof.
elim: rs labels => [|r rs IH] [|l labels] //= /andP [/eqP Sr A] [S].
by rewrite (IH _ A S) /cell nth_rcons Sr ltnn eqxx.
Qed.

Lemma append_other (rs : seq (seq value)) (labels : seq value) (j : nat) :
  all (fun r => size r == n) rs -> size labels = size rs -> j < n ->
  [seq cell j (rcons rv.1 rv.2) | rv <- zip rs labels] = [seq cell j r | r <- rs].
Proof.
move=> A S jn; elim: rs labels A S => [|r rs IH] [|l labels] //=.
by move=> /andP [/eqP Sr A] [S]; rewrite (IH _ A S) /cell nth_rcons Sr jn.
Qed.

End SetColumn.

Lemma size_setitem df name series :
  size series = size (rows df) -> size (rows (setitem df name series)) = size (rows df).
Proof.
by rewrite /setitem => S; case: (has_column df name);
   rewrite /= size_map size_zip S minnn.
Qed.

Lemma has_column_setitem df name series : has_column (setitem df name series) name.
Proof.
rewrite /setitem; case H: (has_column df name) => //=.
by rewrite /has_column /= -cats1 has_cat /= String.eqb_refl orbT.
Qed.

Lemma column_setitem df name series :
  rectangular df -> size series = size (rows df) ->
  column (setitem df name series) name = series.
Proof.
move=> R S; rewrite /column /column_index /setitem.
case H: (has_column df name) => /=; rewrite -map_comp.
- exact: overwrite_read.
- rewrite -cats1 find_cat [has _ _]H /= String.eqb_refl addn0.
  exact: (@append_read (size (columns df))).
Qed.

Lemma distinct_index df a b :
  a <> b -> has_column df a -> has_column df b ->
  column_index df a != column_index df b.
Proof.
move=> ab Ha Hb; apply/eqP => E; apply: ab.
have /String.eqb_eq A := nth_find EmptyString Ha.
have /String.eqb_eq B := nth_find EmptyString Hb.
by rewrite [LHS]A [RHS]B -/(column_index df a) -/(column_index df b) E.
Qed.

Lemma column_setitem_other df name other series :
  rectangular df -> size series = size (rows df) ->
  other <> name -> has_column df other ->
  column (setitem df name series) other = column df other.
Proof.
move=> R S ON Ho; rewrite /column /column_index /setitem.
case H: (has_column df name) => /=; rewrite -map_comp.
- by apply: overwrite_other => //; apply: distinct_index => //; rewrite H.
- rewrite -cats1 find_cat [has _ _]Ho.
  by apply: (@append_other (size (columns df))) => //; rewrite -has_find.
Qed.

Lemma part3_shown df sc sy map_data labelled :
  select_map_rows df sy = ret map_data ->
  ~~ empty map_data ->
  attach_highlight map_data sc = ret labelled ->
  part3 df sc sy
  = ([:: Header "Part 3: Map of Predicted Temperature and CO2 Levels";
         PlotlyChart (Choropleth labelled (truthy sc)) ],
     Done (if truthy sy then df else labelled)).
Proof. by rewrite /part3 => -> /= -> /= ->. Qed.

(** C6. The code departs from the claim at the year 0.  It is a selectable
    year of the table below, yet with it selected the guard
    [if selected_year] takes the whole table for the map, the row of year 1
    included. *)
Lemma year_zero_map_keeps_every_row :
  [/\ valid_selection sample_year0 "year" (Some (VNum (Fin 0))),
      select_map_rows sample_year0 (Some (VNum (Fin 0))) = ret sample_year0,
      List.In (record "India" 1 2.0 410) (rows sample_year0)
    & py_eq (cell (column_index sample_year0 "year") (record "India" 1 2.0 410))
            (VNum (Fin 0)) = false ].
Proof. by split=> //=; [left | right; left]. Qed.

(** X18. Map rows and labels, for every country and year selection on a
    rectangular table with the columns [country] and [year].  The map takes
    the rows whose year equals a truthy year selection, and the whole table
    otherwise.  Attaching the label keeps every row and the country of every
    row, and the [highlight] cell of a row is "Selected Country" exactly when
    its country equals the country selection, "Other Countries" otherwise.
    When the map has a row, that labelled table is the one drawn. *)
Theorem map_rows_and_labels (df : DataFrame) (sc sy : option value) :
  rectangular df -> has_column df "country" -> has_column df "year" ->
  exists map_data labelled : DataFrame,
    [/\ select_map_rows df sy = ret map_data,
        [/\ columns map_data = columns df,
            rows map_data
            = [seq r <- rows df
                 | satisfies (effective sy) (cell (column_index df "year") r)]
          & truthy sy = false -> map_data = df ],
        attach_highlight map_data sc = ret labelled,
        size (rows labelled) = size (rows map_data)
      & [/\ column labelled "highlight"
            = [seq if eq_selection sc x then VStr "Selected Country"
                   else VStr "Other Countries"
              | x <- column map_data "country"],
            column labelled "country" = column map_data "country"
          & ~~ empty map_data ->
            part3 df sc sy
            = ([:: Header "Part 3: Map of Predicted Temperature and CO2 Levels";
                   PlotlyChart (Choropleth labelled (truthy sc)) ],
               Done (if truthy sy then df else labelled)) ] ].
Proof.
move=> R Hc Hy.
pose md := mkDF (columns df)
  [seq r <- rows df
     | satisfies (effective sy) (cell (column_index df "year") r)].
pose labels := [seq highlight_label sc x | x <- column md "country"].
have E : select_map_rows df sy = ret md
  by rewrite (select_map_rows_effective _ Hy).
have Rm : rectangular md by exact: all_filter_keep.
have Hm : has_column md "country" by [].
have S : size labels = size (rows md) by rewrite !size_map.
have A : attach_highlight md sc = ret (setitem md "highlight" labels)
  by rewrite /attach_highlight (getitem_column Hm) bind_ret.
exists md, (setitem md "highlight" labels); split=> //.
- split=> // F; rewrite /md /effective F /= filter_predT; exact: eta_df.
- exact: size_setitem.
- split; first by rewrite column_setitem.
  + by apply: column_setitem_other.
  + by move=> NE; exact: (part3_shown E NE A).
Qed.

Lemma map_rows_and_labels_witness :
  exists map_data labelled : DataFrame,
    [/\ select_map_rows sample (Some (VNum (Fin 2000))) = ret map_data,
        column map_data "country" = [:: VStr "India"; VStr "Brazil" ],
        attach_highlight map_data (Some (VStr "Brazil")) = ret labelled
      & column labelled "highlight"
        = [:: VStr "Other Countries"; VStr "Selected Country" ] ].
Proof.
have R : rectangular sample by [].
have Hc : has_column sample "country" by [].
have Hy : has_column sample "year" by [].
case: (@map_rows_and_labels sample (Some (VStr "Brazil"))
         (Some (VNum (Fin 2000))) R Hc Hy)
  => md [lab [E [Cm Rw _] A _ [H _ _]]].
exists md, lab; split=> //; first by rewrite /column /column_index Cm Rw.
by rewrite H /column /column_index Cm Rw.
Defined.

(** ** Custom chart *)

(** C8. With the pie kind the page shows the extra values selectbox and the
    chart is built from the x selection (as names) and that values field
    alone: neither the y-axis nor the colour selection changes anything.
    With the histogram kind the chart is built from the x selection and the
    colour, which may be absent; the y-axis selection changes nothing. *)
Theorem pie_and_histogram_fields (df : DataFrame) (sc sy : option value)
    (x y : string) (c : option string) (pv : string) :
  [/\ part4 df (mkWidgets sc sy Pie x y c pv)
      = (custom_plot_controls df Pie
         ++ [:: Selectbox "Select Values for Pie" (column_options df);
                PlotlyChart (PxPie df x pv ("Distribution of " ++ pv)) ],
         Done tt)%SEQ,
      forall y' c', part4 df (mkWidgets sc sy Pie x y' c' pv)
                    = part4 df (mkWidgets sc sy Pie x y c pv),
      part4 df (mkWidgets sc sy Histogram x y c pv)
      = (custom_plot_controls df Histogram
         ++ [:: PlotlyChart
                  (PxHistogram df x (color_arg c) ("Histogram of " ++ x) 20) ],
         Done tt)%SEQ,
      forall y' pv', part4 df (mkWidgets sc sy Histogram x y' c pv')
                     = part4 df (mkWidgets sc sy Histogram x y c pv)
    & part4 df (mkWidgets sc sy Histogram x y None pv)
      = (custom_plot_controls df Histogram
         ++ [:: PlotlyChart (PxHistogram df x None ("Histogram of " ++ x) 20) ],
         Done tt)%SEQ ].
Proof. by split. Qed.

(** ** Missing columns *)



Lemma dashboard_analysis raw w :
  has_column (load raw) "country" ->
  ~~ mixed_kinds (unique (column (load raw) "country")) ->
  has_column (load raw) "year" ->
  ~~ mixed_kinds (unique (column (load raw) "year")) ->
  dashboard (Some raw) w
  = ((preamble
      ++ [:: Selectbox "Select Country" (filter_options (load raw) "country");
             Selectbox "Select Year" (filter_options (load raw) "year") ])
     ++ log_of (analysis (load raw) (selected_country w) (selected_year w) w),
     result_of (analysis (load raw) (selected_country w) (selected_year w) w))%SEQ.
Proof.
move=> Hc /negbTE Sc Hy /negbTE Sy.
rewrite /dashboard (getitem_column Hc) /= /py_sorted Sc /=.
rewrite (getitem_column Hy) /= Sy /=.
by case: (analysis _ _ _ _).
Qed.

Lemma has_column_nonempty df name : has_column df name -> size (columns df) != 0.
Proof. by rewrite /has_column has_find -lt0n; exact: leq_ltn_trans. Qed.


Lemma has_filter_keep (T : Type) (a p : pred T) (s : seq T) :
  ~~ has a s -> ~~ has a (filter p s).
Proof.
elim: s => [|x s IH] //=; rewrite negb_or => /andP [ax /IH H].
by case: (p x) => //=; rewrite negb_or ax.
Qed.

Lemma no_str_selected df name sc sy :
  ~~ has is_str (column df name) ->
  ~~ has is_str (column (mkDF (columns df) (selected_rows df sc sy)) name).
Proof.
rewrite /column /column_index /= !has_map /selected_rows.
exact: has_filter_keep.
Qed.


(** * Further properties of the script *)

(** ** Normal form of column names *)

Lemma canon_canonical c : canonical_char (Names.canon c).
Proof. by each_ascii c. Qed.

Lemma canon_fixed c : canonical_char c -> Names.canon c = c.
Proof. by each_ascii c. Qed.

Lemma sall_smap_canon s : sall canonical_char (Names.smap Names.canon s).
Proof. by elim: s => [|c s IH] //=; rewrite canon_canonical. Qed.

Lemma smap_canon_fixed s :
  sall canonical_char s -> Names.smap Names.canon s = s.
Proof. by elim: s => [|c s IH] //= /andP [/canon_fixed -> /IH ->]. Qed.

(** X1. A normalized column name is in normal form - trimmed, without a
    space and without an ASCII capital - so a name that normalization leaves
    unchanged is in normal form; conversely an ASCII name in normal form is
    left unchanged. *)
Theorem normalize_canonical_form (s : string) :
  [/\ canonical_name (Names.normalize s),
      Names.normalize s = s -> canonical_name s
    & sall is_ascii s -> canonical_name s -> Names.normalize s = s ].
Proof.
have C : canonical_name (Names.normalize s).
  have L : Names.lclean (Names.smap Names.canon (Names.strip s))
    by apply: lclean_smap; apply: lclean_rstrip; exact: lclean_lstrip.
  have R : Names.rclean (Names.smap Names.canon (Names.strip s))
    by apply: rclean_smap; exact: rclean_rstrip.
  by rewrite normalize_canon /canonical_name L R sall_smap_canon.
split=> // [<- //|_ /and3P [L R A]].
by rewrite normalize_canon (strip_clean L R) smap_canon_fixed.
Qed.

Lemma normalize_canonical_form_witness :
  canonical_name "average_co2" /\ Names.normalize "average_co2" = "average_co2".
Proof.
case: (normalize_canonical_form "average_co2") => _ _ /(_ isT isT) E.
by split.
Defined.

(** ** Filter engine: errors, composition, emptiness *)

Lemma filter_step_guarded df name sel :
  (truthy sel -> has_column df name) ->
  (if truthy sel
   then let* col := getitem df name in
        ret (boolean_index df (series_eq col sel))
   else ret df)
  = ret (mkDF (columns df)
           [seq r <- rows df
              | satisfies (effective sel) (cell (column_index df name) r)]).
Proof.
case T: (truthy sel) => H; first by rewrite -(filter_step sel (H isT)) T.
have E : (fun r => satisfies (effective sel) (cell (column_index df name) r))
         =1 predT by move=> r; rewrite satisfies_effective T.
by rewrite (eq_filter E) filter_predT eta_df.
Qed.

Lemma apply_filters_guarded df sc sy :
  (truthy sc -> has_column df "country") ->
  (truthy sy -> has_column df "year") ->
  apply_filters df sc sy
  = ret (mkDF (columns df) (selected_rows df (effective sc) (effective sy))).
Proof.
move=> Hc Hy; rewrite /apply_filters (filter_step_guarded Hc) bind_ret.
rewrite (@filter_step_guarded (mkDF _ _) "year" sy Hy) /=.
rewrite /selected_rows -filter_predI.
by congr (ret (mkDF _ _)); apply: eq_filter => r /=; rewrite andbC.
Qed.

Lemma apply_filters_cases df sc sy :
  apply_filters df sc sy
  = if truthy sc && ~~ has_column df "country" then raise (KeyError "country")
    else if truthy sy && ~~ has_column df "year" then raise (KeyError "year")
    else ret (mkDF (columns df)
                (selected_rows df (effective sc) (effective sy))).
Proof.
case Tc: (truthy sc); case Hc: (has_column df "country") => /=;
  case Ty: (truthy sy); case Hy: (has_column df "year") => /=;
  try by apply: apply_filters_guarded; rewrite ?Tc ?Ty ?Hc ?Hy.
- rewrite /apply_filters Tc (getitem_column Hc) bind_ret /= Ty.
  by rewrite /getitem /has_column /= [has _ _]Hy.
- by rewrite /apply_filters Tc /getitem Hc.
- by rewrite /apply_filters Tc /getitem Hc.
- by rewrite /apply_filters Tc /getitem Hc.
- by rewrite /apply_filters Tc /getitem Hc.
- by rewrite /apply_filters Tc bind_ret Ty /getitem Hy.
- by rewrite /apply_filters Tc bind_ret Ty /getitem Hy.
Qed.

(** X2. [apply_filters] shows nothing on the page and fails in two cases
    only: a truthy country selection on a table without [country] raises
    KeyError 'country'; otherwise a truthy year selection on a table without
    [year] raises KeyError 'year'.  In every other case, falsy selections on
    a table without those columns included, it returns the rows asked for by
    the truthy selections. *)
Theorem apply_filters_outcome (df : DataFrame) (sc sy : option value) :
  apply_filters df sc sy
  = if truthy sc && ~~ has_column df "country" then raise (KeyError "country")
    else if truthy sy && ~~ has_column df "year" then raise (KeyError "year")
    else ret (mkDF (columns df)
                (selected_rows df (effective sc) (effective sy))).
Proof. exact: apply_filters_cases. Qed.

(** X3. Filtering composes: on a table with both filter columns, filtering
    by country and then by year, or by year and then by country, gives the
    table obtained by filtering by both at once, and filtering an already
    filtered table again with the same selection changes nothing. *)
Theorem apply_filters_compose (df : DataFrame) (sc sy : option value) :
  has_column df "country" -> has_column df "year" ->
  [/\ (let* d := apply_filters df sc None in apply_filters d None sy)
      = apply_filters df sc sy,
      (let* d := apply_filters df None sy in apply_filters d sc None)
      = apply_filters df sc sy
    & (let* d := apply_filters df sc sy in apply_filters d sc sy)
      = apply_filters df sc sy ].
Proof.
move=> Hc Hy.
have H d (Cd : columns d = columns df) s1 s2 :
  apply_filters d s1 s2
  = ret (mkDF (columns d) (selected_rows d (effective s1) (effective s2))).
  by apply: apply_filters_effective; rewrite /has_column Cd.
rewrite !(H df (erefl _)); split; rewrite bind_ret H //= /selected_rows /=.
- rewrite -filter_predI; congr (ret (mkDF _ _)).
  by apply: eq_filter => r /=; rewrite andbT andbC.
- rewrite -filter_predI; congr (ret (mkDF _ _)).
  by apply: eq_filter => r /=; rewrite andbT.
- by rewrite filter_id.
Qed.

Lemma apply_filters_compose_witness :
  (let* d := apply_filters sample (Some (VStr "India")) None in
   apply_filters d None (Some (VNum (Fin 2001))))
  = ret (mkDF climate_columns [:: record "India" 2001 2.0 410 ]).
Proof.
have Hc : has_column sample "country" by [].
have Hy : has_column sample "year" by [].
case: (@apply_filters_compose sample (Some (VStr "India"))
         (Some (VNum (Fin 2001))) Hc Hy) => -> _ _.
by [].
Defined.

Lemma In_column_has df name v :
  List.In v (column df name) -> py_eq v v ->
  has (fun r => py_eq (cell (column_index df name) r) v) (rows df).
Proof.
rewrite /column => I R; elim: (rows df) I => [|r rs IH] //=.
by case=> [->|/IH ->]; rewrite ?R ?orbT.
Qed.

Lemma py_eq_nan v : py_eq v (VNum NaN) = false.
Proof. by case: v => [s|[q|]]. Qed.

(** X4. Choosing one value that occurs in its column, is truthy and is not
    NaN, while the other filter is falsy, never leaves the table empty: the
    filtered table has a row, so Part 1 does not take its no-data branch. *)
Theorem present_selection_keeps_rows (df : DataFrame) (v : value)
    (other : option value) :
  has_column df "country" -> has_column df "year" ->
  truthy (Some v) -> py_eq v v -> truthy other = false ->
  [/\ List.In v (column df "country") ->
      exists2 filtered_df,
        apply_filters df (Some v) other = ret filtered_df
        & ~~ empty filtered_df
    & List.In v (column df "year") ->
      exists2 filtered_df,
        apply_filters df other (Some v) = ret filtered_df
        & ~~ empty filtered_df ].
Proof.
move=> Hc Hy T R F.
have NC := has_column_nonempty Hc.
have EO : effective other = None by rewrite /effective F.
have EV : effective (Some v) = Some v by rewrite /effective T.
have NE p : has p (rows df) -> ~~ empty (mkDF (columns df) (filter p (rows df))).
  by rewrite /empty /= negb_or NC andbT size_filter -lt0n -has_count.
split=> I; rewrite (apply_filters_effective _ _ Hc Hy) EO EV;
  eexists; try reflexivity; apply: NE; have := In_column_has I R;
  by apply: sub_has => r /=; rewrite ?andbT.
Qed.

Lemma present_selection_keeps_rows_witness :
  exists2 filtered_df,
    apply_filters sample (Some (VStr "Brazil")) None = ret filtered_df
    & ~~ empty filtered_df.
Proof.
have Hc : has_column sample "country" by [].
have Hy : has_column sample "year" by [].
have T : truthy (Some (VStr "Brazil")) by [].
have R : py_eq (VStr "Brazil") (VStr "Brazil") by [].
have F : truthy None = false by [].
case: (@present_selection_keeps_rows sample (VStr "Brazil") None Hc Hy T R F)
  => A _.
by apply: A; right; right; left.
Defined.

(** X5. The missing-value entry of a selector matches no row.  NaN is
    truthy, so the filter is applied, and no cell equals NaN: the filtered
    table is empty and Part 1 shows its no-data warning. *)
Theorem nan_selection_gives_no_data (df : DataFrame) (other : option value) :
  has_column df "country" -> has_column df "year" ->
  [/\ apply_filters df other (Some (VNum NaN)) = ret (mkDF (columns df) [::]),
      apply_filters df (Some (VNum NaN)) other = ret (mkDF (columns df) [::])
    & part1 (mkDF (columns df) [::]) = (no_data_log, Done tt) ].
Proof.
move=> Hc Hy; rewrite !(apply_filters_effective _ _ Hc Hy) /selected_rows.
split=> //; congr (ret (mkDF _ _)); rewrite -[RHS](filter_pred0 (rows df));
  by apply: eq_filter => r /=; rewrite py_eq_nan ?andbF.
Qed.

Lemma nan_selection_gives_no_data_witness :
  apply_filters sample None (Some (VNum NaN)) = ret (mkDF climate_columns [::]).
Proof.
have Hc : has_column sample "country" by [].
have Hy : has_column sample "year" by [].
by case: (@nan_selection_gives_no_data sample None Hc Hy).
Defined.

(** ** Classification regions *)

Lemma le_weaken x (a b : Q) : Qle a b -> le x a -> le x b.
Proof.
case: x => [q|] //= ab /Qle_bool_iff H; apply/Qle_bool_iff.
exact: Qle_trans H ab.
Qed.

Lemma le_gt x a : le x a = ~~ is_nan x && ~~ gt x a.
Proof. by case: x => [q|] //=; rewrite negbK. Qed.

Lemma wheatE t c :
  (crop_suggestion t c = Wheat) <-> gt t 1.5 && gt c 400.
Proof.
rewrite /crop_suggestion; case: (gt t 1.5 && gt c 400) => //.
by case: (gt t 1.0 && le c 400).
Qed.

Lemma riceE t c :
  (crop_suggestion t c = Rice) <-> gt t 1.0 && le c 400.
Proof.
rewrite /crop_suggestion le_gt.
case W: (gt t 1.5 && gt c 400); last by case: (gt t 1.0 && _).
by case/andP: W => _ ->; rewrite !andbF.
Qed.

Lemma potatoesE t c :
  (crop_suggestion t c = Potatoes)
  <-> [|| is_nan t, is_nan c, le t 1.0 | le t 1.5 && gt c 400].
Proof.
have W : le t 1.0 -> le t 1.5 by apply: le_weaken.
rewrite /crop_suggestion !le_gt; move: W; rewrite !le_gt.
case: t => [p|]; case: c => [q|] //=; rewrite ?andbF //.
by case: (Qle_bool p 1.5); case: (Qle_bool p 1.0); case: (Qle_bool q 400) => //= /(_ isT).
Qed.

(** X6. The three categories as regions of the plane of means.  Wheat is
    t > 1.5 with c > 400; Rice is t > 1.0 with c <= 400, so the two rules
    exclude each other and their order is immaterial; Potatoes is the rest:
    a NaN mean, or t <= 1.0, or t <= 1.5 with c > 400. *)
Theorem crop_regions (t c : number) :
  [/\ crop_suggestion t c = Wheat <-> above t 1.5 /\ above c 400,
      crop_suggestion t c = Rice <-> above t 1.0 /\ at_most c 400
    & crop_suggestion t c = Potatoes
      <-> [\/ t = NaN, c = NaN, at_most t 1.0
            | at_most t 1.5 /\ above c 400 ] ].
Proof.
split.
- by rewrite wheatE; split=> [/andP [/gtP A /gtP B]|[/gtP A /gtP B]] //;
     apply/andP.
- by rewrite riceE; split=> [/andP [/gtP A /leP B]|[/gtP A /leP B]] //;
     apply/andP.
- rewrite potatoesE; split.
  + case/or4P=> [N|N|/leP L|/andP [/leP L /gtP G]].
    * by constructor 1; case: t N.
    * by constructor 2; case: c N.
    * by constructor 3.
    * by constructor 4.
  + by case=> [->|->|/leP ->|[/leP -> /gtP ->]] //; rewrite ?orbT.
Qed.

(** X7. A NaN mean always yields the Potatoes suggestion.  On a non-empty
    table whose value columns hold no string, if one of the two columns has
    no present cell, Part 1 still writes a recommendation: the NaN
    prediction and the Potatoes category. *)
Theorem missing_mean_suggests_potatoes (df : DataFrame) :
  ~~ empty df ->
  has_column df "temperature_anomaly" -> has_column df "average_co2" ->
  ~~ has is_str (column df "temperature_anomaly") ->
  ~~ has is_str (column df "average_co2") ->
  present (column df "temperature_anomaly") = [::]
  \/ present (column df "average_co2") = [::] ->
  exists t c : number,
    part1 df = (recommendation_log t c Potatoes, Done tt)
    /\ (t = NaN \/ c = NaN).
Proof.
move=> NE Ht Hc St Sc P.
pose mean name := if count notna (column df name) == 0 then NaN
  else Fin (series_sum (column df name) / Qcount (count notna (column df name)))%Q.
have Mt : column_mean df "temperature_anomaly" = ret (mean "temperature_anomaly")
  by rewrite /column_mean (getitem_column Ht) bind_ret series_mean_numeric.
have Mc : column_mean df "average_co2" = ret (mean "average_co2")
  by rewrite /column_mean (getitem_column Hc) bind_ret series_mean_numeric.
have N : mean "temperature_anomaly" = NaN \/ mean "average_co2" = NaN.
  by case: P => P; [left | right]; rewrite /mean count_present // P.
exists (mean "temperature_anomaly"), (mean "average_co2"); split=> //.
rewrite (part1_means NE Mt Mc); congr (recommendation_log _ _ _, _).
by apply/potatoesE; case: N => ->; rewrite ?orbT.
Qed.

Lemma missing_mean_suggests_potatoes_witness :
  exists t c : number,
    part1 (mkDF climate_columns
             [:: [:: VStr "India"; VNum (Fin 2000); VNum NaN; VNum (Fin 450) ] ])
    = (recommendation_log t c Potatoes, Done tt)
    /\ (t = NaN \/ c = NaN).
Proof.
by apply: missing_mean_suggests_potatoes => //; left.
Defined.

(** ** Writing a column *)

Section SetColumnShape.

Variable n : nat.

Lemma overwrite_size (rs : seq (seq value)) (labels : seq value) (i : nat) :
  all (fun r => size r == n) rs -> i < n ->
  all (fun r => size r == n)
      [seq set_nth (VNum NaN) rv.1 i rv.2 | rv <- zip rs labels].
Proof.
move=> A lt_in; elim: rs labels A => [|r rs IH] [|l labels] //= /andP [/eqP S A].
rewrite (IH _ A) andbT size_set_nth S.
by apply/eqP/maxn_idPr.
Qed.

Lemma append_size (rs : seq (seq value)) (labels : seq value) :
  all (fun r => size r == n) rs ->
  all (fun r => size r == n.+1) [seq rcons rv.1 rv.2 | rv <- zip rs labels].
Proof.
elim: rs labels => [|r rs IH] [|l labels] //= /andP [/eqP S A].
by rewrite (IH _ A) size_rcons S eqxx.
Qed.

End SetColumnShape.

Lemma rectangular_setitem df name series :
  rectangular df -> rectangular (setitem df name series).
Proof.
rewrite /rectangular /setitem => R; case H: (has_column df name) => /=.
- by apply: overwrite_size => //; rewrite /column_index -has_find.
- by rewrite size_rcons; exact: append_size.
Qed.

(** X8. Writing a column and reading it back.  On a rectangular table,
    assigning a series with one value per row makes the column present and
    equal to the series, leaves every other column as it was, keeps the
    number of rows and the rectangular shape, and changes the column index
    only by appending the name when it was absent. *)
Theorem setitem_round_trip (df : DataFrame) (name : string)
    (series : seq value) :
  rectangular df -> size series = size (rows df) ->
  let df' := setitem df name series in
  [/\ has_column df' name /\ column df' name = series,
      forall other, other <> name -> has_column df other ->
        column df' other = column df other,
      size (rows df') = size (rows df),
      rectangular df'
    & columns df'
      = if has_column df name then columns df else rcons (columns df) name ].
Proof.
move=> R S df'; split.
- by split; [exact: has_column_setitem | exact: column_setitem].
- by move=> other ON Ho; exact: column_setitem_other.
- exact: size_setitem.
- exact: rectangular_setitem.
- by rewrite /df' /setitem; case: (has_column df name).
Qed.

Lemma setitem_round_trip_witness :
  column (setitem sample "year" [:: VNum (Fin 1); VNum (Fin 2); VNum (Fin 3) ])
         "year"
  = [:: VNum (Fin 1); VNum (Fin 2); VNum (Fin 3) ]
  /\ column (setitem sample "year" [:: VNum (Fin 1); VNum (Fin 2); VNum (Fin 3) ])
            "country"
     = column sample "country".
Proof.
have R : rectangular sample by [].
have S : size [:: VNum (Fin 1); VNum (Fin 2); VNum (Fin 3) ]
         = size (rows sample) by [].
case: (@setitem_round_trip sample "year" _ R S) => -[_ A] B _ _ _.
by split; [exact: A | apply: B].
Defined.

(** ** Map: which table the rest of the page sees *)

Lemma attach_highlight_column df sc :
  has_column df "country" ->
  attach_highlight df sc
  = ret (setitem df "highlight"
           [seq highlight_label sc x | x <- column df "country"]).
Proof. by move=> H; rewrite /attach_highlight (getitem_column H) bind_ret. Qed.

(** X9. The table that Part 4 receives.  With a truthy year the map is
    built on a filtered copy and the table is handed on untouched.  With no
    year applied the map is the table itself: on a table with a row the
    [highlight] column is written into it, so the table handed on has that
    column (appended when it was absent); on an empty table only the warning
    is shown and the table is handed on as it is. *)
Theorem part3_table_after (df : DataFrame) (sc sy : option value) :
  has_column df "country" -> has_column df "year" ->
  [/\ truthy sy -> result_of (part3 df sc sy) = Done df,
      truthy sy = false -> empty df ->
      part3 df sc sy
      = ([:: Header "Part 3: Map of Predicted Temperature and CO2 Levels";
             Warning "No data available for the selected year to display the map." ],
         Done df)
    & truthy sy = false -> ~~ empty df ->
      exists2 labelled,
        part3 df sc sy
        = ([:: Header "Part 3: Map of Predicted Temperature and CO2 Levels";
               PlotlyChart (Choropleth labelled (truthy sc)) ],
           Done labelled)
        & has_column labelled "highlight"
          /\ columns labelled
             = if has_column df "highlight" then columns df
               else rcons (columns df) "highlight" ].
Proof.
move=> Hc Hy; split.
- move=> T; rewrite /part3 (select_map_rows_effective _ Hy) /=.
  set md := mkDF _ _; have Hm : has_column md "country" by [].
  by case: (empty md) => //=; rewrite (attach_highlight_column _ Hm) /= T.
- by move=> F E; rewrite /part3 /select_map_rows F /= E.
- move=> F NE; eexists.
    rewrite /part3 /select_map_rows F /= NE /=.
    by rewrite (attach_highlight_column _ Hc).
  split; first exact: has_column_setitem.
  by rewrite /setitem; case: (has_column df "highlight").
Qed.

Lemma part3_table_after_witness :
  result_of (part3 sample None (Some (VNum (Fin 2000)))) = Done sample
  /\ exists2 labelled,
       result_of (part3 sample None None) = Done labelled
       & has_column labelled "highlight".
Proof.
have Hc : has_column sample "country" by [].
have Hy : has_column sample "year" by [].
split.
- by case: (@part3_table_after sample None (Some (VNum (Fin 2000))) Hc Hy)
       => /(_ isT).
- case: (@part3_table_after sample None None Hc Hy) => _ _ /(_ erefl isT).
  by case=> lab -> [H _]; exists lab.
Defined.

(** X10. The map is drawn exactly when some row has the selected year.  For
    a truthy year selection on a table with the two filter columns, Part 3
    draws the choropleth when a row's year equals the selection and shows
    only its warning otherwise - as for the NaN entry, which equals no
    cell.  In both cases the table is handed on unchanged. *)
Theorem map_drawn_iff_year_present (df : DataFrame) (sc : option value)
    (y : value) :
  has_column df "country" -> has_column df "year" -> truthy (Some y) ->
  let matches := has (fun r => py_eq (cell (column_index df "year") r) y)
                     (rows df) in
  [/\ matches ->
      exists labelled,
        part3 df sc (Some y)
        = ([:: Header "Part 3: Map of Predicted Temperature and CO2 Levels";
               PlotlyChart (Choropleth labelled (truthy sc)) ],
           Done df),
      ~~ matches ->
      part3 df sc (Some y)
      = ([:: Header "Part 3: Map of Predicted Temperature and CO2 Levels";
             Warning "No data available for the selected year to display the map." ],
         Done df)
    & y = VNum NaN -> ~~ matches ].
Proof.
move=> Hc Hy T matches.
have NC := has_column_nonempty Hc.
have E : effective (Some y) = Some y by rewrite /effective T.
have P : part3 df sc (Some y)
         = (let md := mkDF (columns df)
                        [seq r <- rows df
                           | py_eq (cell (column_index df "year") r) y] in
            if ~~ empty md
            then ([:: Header "Part 3: Map of Predicted Temperature and CO2 Levels";
                      PlotlyChart
                        (Choropleth
                           (setitem md "highlight"
                              [seq highlight_label sc x | x <- column md "country"])
                           (truthy sc)) ], Done df)
            else ([:: Header "Part 3: Map of Predicted Temperature and CO2 Levels";
                      Warning "No data available for the selected year to display the map." ],
                  Done df)).
  rewrite /part3 (select_map_rows_effective _ Hy) E T /=.
  set md := mkDF _ _; have Hm : has_column md "country" by [].
  by case: (empty md) => //=; rewrite (attach_highlight_column _ Hm).
have EM : empty (mkDF (columns df)
                   [seq r <- rows df | py_eq (cell (column_index df "year") r) y])
          = ~~ matches.
  by rewrite /empty /= (negbTE NC) orbF size_filter -[_ == 0]negbK -lt0n -has_count.
split.
- by move=> M; rewrite P /= EM M /=; eexists.
- by move=> M; rewrite P /= EM M.
- move=> Ey; rewrite /matches Ey -all_predC.
  by apply: sub_all (all_predT (rows df)) => r _ /=; rewrite py_eq_nan.
Qed.

Lemma map_drawn_iff_year_present_witness :
  part3 sample None (Some (VNum (Fin 1999)))
  = ([:: Header "Part 3: Map of Predicted Temperature and CO2 Levels";
         Warning "No data available for the selected year to display the map." ],
     Done sample).
Proof.
have Hc : has_column sample "country" by [].
have Hy : has_column sample "year" by [].
have T : truthy (Some (VNum (Fin 1999))) by [].
case: (@map_drawn_iff_year_present sample None (VNum (Fin 1999)) Hc Hy T)
  => _ A _.
by apply: A.
Defined.

(** ** The whole page on a well-formed table *)

Lemma bind_done (A B : Type) (l : seq element) (a : A) (k : A -> M B) :
  bind (l, Done a) k = ((l ++ log_of (k a))%SEQ, result_of (k a)).
Proof. by rewrite /bind /log_of /result_of; case: (k a). Qed.

Lemma header_texts_cat l l' :
  header_texts (l ++ l') = (header_texts l ++ header_texts l')%SEQ.
Proof. exact: pmap_cat. Qed.

Lemma part1_runs df :
  has_column df "temperature_anomaly" -> has_column df "average_co2" ->
  ~~ has is_str (column df "temperature_anomaly") ->
  ~~ has is_str (column df "average_co2") ->
  exists2 l, part1 df = (l, Done tt)
           & header_texts l
             = [:: "Part 1: Predicted Temperature, CO2, and Crop Yield Suggestions" ].
Proof.
move=> Ht Hc St Sc; case E: (empty df).
  by rewrite (part1_empty E); exists no_data_log.
have Mt := series_mean_numeric St; have Mc := series_mean_numeric Sc.
eexists.
  apply: part1_means; rewrite ?E // /column_mean.
  - by rewrite (getitem_column Ht) bind_ret Mt.
  - by rewrite (getitem_column Hc) bind_ret Mc.
by [].
Qed.

Lemma part2_runs df :
  has_column df "year" -> has_column df "temperature_anomaly" ->
  has_column df "average_co2" ->
  part2 df = (part2_log df, Done tt).
Proof.
move=> Hy Ht Hc; rewrite /part2 /part2_log; case: (empty df) => //=.
by rewrite (getitem_column Hy) /= (getitem_column Ht) /= (getitem_column Hc).
Qed.

Lemma part3_runs df sc sy :
  has_column df "country" -> has_column df "year" ->
  exists l df',
    part3 df sc sy = (l, Done df')
    /\ header_texts l
       = [:: "Part 3: Map of Predicted Temperature and CO2 Levels" ].
Proof.
move=> Hc Hy; rewrite /part3 (select_map_rows_effective _ Hy) /=.
set md := mkDF _ _; have Hm : has_column md "country" by [].
case: (empty md) => /=; first by do 2!eexists; split; reflexivity.
by rewrite (attach_highlight_column _ Hm) /=; do 2!eexists; split; reflexivity.
Qed.

Lemma part4_runs df w :
  exists2 l, part4 df w = (l, Done tt)
           & header_texts l = [:: "Custom " ++ plot_label (plot_type w) ].
Proof. by case: w => sc sy [] x y c pv; eexists; reflexivity. Qed.

Lemma analysis_runs df sc sy w :
  well_formed df ->
  exists l1 l3 l4,
    [/\ analysis df sc sy w
        = ((l1 ++ part2_log df ++ l3 ++ l4)%SEQ, Done tt),
        header_texts l1
        = [:: "Part 1: Predicted Temperature, CO2, and Crop Yield Suggestions" ],
        header_texts l3
        = [:: "Part 3: Map of Predicted Temperature and CO2 Levels" ]
      & header_texts l4 = [:: "Custom " ++ plot_label (plot_type w) ] ].
Proof.
case/and5P=> Hc Hy Ht Ho /and4P [_ _ St So].
rewrite /analysis (apply_filters_effective _ _ Hc Hy) bind_ret.
set F := mkDF _ _.
have [l1 E1 H1] : exists2 l, part1 F = (l, Done tt)
    & header_texts l
      = [:: "Part 1: Predicted Temperature, CO2, and Crop Yield Suggestions" ].
  by apply: part1_runs => //; exact: no_str_selected.
have [l3 [df' [E3 H3]]] := part3_runs sc sy Hc Hy.
have [l4 E4 H4] := part4_runs df' w.
exists l1, l3, l4; split=> //.
rewrite E1 bind_done (part2_runs Hy Ht Ho) bind_done E3 bind_done E4.
by rewrite /log_of /result_of /=.
Qed.

(** X11. On a well-formed table, read from a file with ASCII header names
    that normalization keeps distinct, no read, filter, mean or sort of the
    script fails, whatever the sidebar holds (the plotting calls are taken
    to succeed).  The page then shows the four parts in order - Part 1,
    Part 2, Part 3 and the custom plot - and, when the table has a row, the
    dual-axis chart of Part 2 plots the whole [year], [temperature_anomaly]
    and [average_co2] columns, not the filtered rows. *)
Theorem dashboard_runs (raw : DataFrame) (w : Widgets) :
  faithful_headers raw -> well_formed (load raw) ->
  [/\ result_of (dashboard (Some raw) w) = Done tt,
      header_texts (log_of (dashboard (Some raw) w))
      = [:: "Part 1: Predicted Temperature, CO2, and Crop Yield Suggestions";
            "Part 2: Temperature and CO2 Levels Over Time (Entire Dataset)";
            "Part 3: Map of Predicted Temperature and CO2 Levels";
            "Custom " ++ plot_label (plot_type w) ]
    & ~~ empty (load raw) ->
      exists l l',
        log_of (dashboard (Some raw) w)
        = (l ++ PlotlyChart
                  (DualAxis (column (load raw) "year")
                     (column (load raw) "temperature_anomaly")
                     (column (load raw) "average_co2")) :: l')%SEQ ].
Proof.
move=> _ W; have [l1 [l3 [l4 [E H1 H3 H4]]]] :=
  analysis_runs (selected_country w) (selected_year w) w W.
case/and5P: W => Hc Hy _ _ /and4P [Sc Sy _ _].
have L : log_of (dashboard (Some raw) w)
         = ((preamble
             ++ [:: Selectbox "Select Country" (filter_options (load raw) "country");
                    Selectbox "Select Year" (filter_options (load raw) "year") ])
            ++ (l1 ++ part2_log (load raw) ++ l3 ++ l4))%SEQ
  by rewrite (dashboard_analysis w Hc Sc Hy Sy) E.
split.
- by rewrite (dashboard_analysis w Hc Sc Hy Sy) E.
- rewrite L !header_texts_cat H1 H3 H4 /part2_log.
  by case: (empty _).
- move=> /negbTE NE; rewrite L /part2_log NE.
  exists (preamble
          ++ [:: Selectbox "Select Country" (filter_options (load raw) "country");
                 Selectbox "Select Year" (filter_options (load raw) "year") ]
          ++ l1
          ++ [:: Header "Part 2: Temperature and CO2 Levels Over Time (Entire Dataset)" ])%SEQ.
  by exists (l3 ++ l4)%SEQ; rewrite /= -!catA.
Qed.

Lemma dashboard_runs_witness :
  result_of (dashboard (Some sample) sample_widgets) = Done tt.
Proof.
have H : faithful_headers sample by [].
have W : well_formed (load sample) by [].
by case: (dashboard_runs sample_widgets H W).
Defined.

(** ** Selector options *)

Lemma same_value_refl v : same_value v v.
Proof.
case: v => [s|[q|]] //=; first exact: String.eqb_refl.
exact: Qeq_bool_refl.
Qed.

Lemma same_value_sym v w : same_value v w = same_value w v.
Proof.
case: v w => [s|[p|]] [t|[q|]] //=; first exact: String.eqb_sym.
exact: Qeq_bool_comm.
Qed.

Lemma same_value_trans w v x :
  same_value v w -> same_value w x -> same_value v x.
Proof.
case: v w x => [s|[p|]] [t|[q|]] [u|[r|]] //=.
- by move=> /String.eqb_eq -> /String.eqb_eq ->; exact: String.eqb_refl.
- exact: Qeq_bool_trans.
Qed.

Lemma has_filter_other (p : pred value) v u :
  (forall w, same_value v w -> p w = p v) ->
  p v || has p [seq w <- u | ~~ same_value v w] = p v || has p u.
Proof.
move=> C; elim: u => [|w u IH] //=.
case S: (same_value v w) => /=; last by rewrite !orbA [p v || _]orbC -!orbA IH.
by rewrite IH (C _ S) orbA orbb.
Qed.

Lemma has_unique (p : pred value) col :
  (forall v w, same_value v w -> p w = p v) ->
  has p (unique col) = has p col.
Proof.
move=> C; elim: col => [|v col IH] //=.
by rewrite has_filter_other ?IH //; exact: C.
Qed.

Lemma is_str_same v w : same_value v w -> is_str w = is_str v.
Proof. by case: v w => [s|[p|]] [t|[q|]]. Qed.

Lemma mixed_kinds_unique col :
  mixed_kinds (unique col) = has is_str col && ~~ all is_str col.
Proof.
rewrite /mixed_kinds -!has_predC !has_unique //; first exact: is_str_same.
by move=> v w /is_str_same /= ->.
Qed.

Lemma comparable_not_mixed col :
  comparable col -> ~~ mixed_kinds (unique col).
Proof.
rewrite mixed_kinds_unique => /orP [->|F]; first by rewrite andbF.
by rewrite (negbTE (fin_not_str F)).
Qed.

(** X12. A filter column that mixes strings with numbers or missing cells
    stops the script with a TypeError when its selector is built: sorting
    the distinct values has to compare a string with a number.  For
    [country] this happens before any selector is on the page; for [year],
    after the country selector, here with a country column of one kind and
    no missing cell.  The file has ASCII header names that normalization
    keeps distinct. *)
Theorem mixed_column_stops_script (raw : DataFrame) (w : Widgets) :
  faithful_headers raw ->
  let df := load raw in
  let mixed name := has is_str (column df name)
                    && ~~ all is_str (column df name) in
  has_column df "country" ->
  [/\ mixed "country" ->
      dashboard (Some raw) w = (preamble, Raised TypeError)
    & comparable (column df "country") -> has_column df "year" ->
      mixed "year" ->
      dashboard (Some raw) w
      = (rcons preamble
           (Selectbox "Select Country" (filter_options df "country")),
         Raised TypeError) ].
Proof.
move=> _ df mixed Hc; split.
- rewrite /mixed -mixed_kinds_unique => M.
  by rewrite /dashboard (getitem_column Hc) /= /py_sorted M.
- rewrite /mixed -!mixed_kinds_unique => /comparable_not_mixed /negbTE Mc Hy My.
  rewrite /dashboard (getitem_column Hc) /= /py_sorted Mc /=.
  by rewrite (getitem_column Hy) /= My.
Qed.

Lemma mixed_column_stops_script_witness :
  dashboard
    (Some (mkDF climate_columns
             [:: record "India" 2000 1.0 370;
                 [:: VNum NaN; VNum (Fin 2001); VNum (Fin 2.0); VNum (Fin 410) ] ]))
    sample_widgets
  = (preamble, Raised TypeError).
Proof.
by case: (@mixed_column_stops_script
            (mkDF climate_columns
               [:: record "India" 2000 1.0 370;
                   [:: VNum NaN; VNum (Fin 2001); VNum (Fin 2.0); VNum (Fin 410) ] ])
            sample_widgets isT isT) => /(_ isT).
Defined.

Lemma unique_distinct col :
  pairwise (fun v w => ~~ same_value v w) (unique col).
Proof.
elim: col => [|v col IH] //=.
by rewrite filter_all /=; exact: pairwise_filter.
Qed.

Lemma has_filter_same x v u :
  ~~ same_value x v ->
  has (same_value x) [seq w <- u | ~~ same_value v w] = has (same_value x) u.
Proof.
move=> N; elim: u => [|w u IH] //=.
case S: (same_value v w) => /=; last by rewrite IH.
rewrite IH; case X: (same_value x w) => //.
by move: N; rewrite (same_value_trans X) // same_value_sym.
Qed.

Lemma unique_cover col v :
  List.In v col -> has (same_value v) (unique col).
Proof.
elim: col => [|x col IH] //= [->|/IH H]; first by rewrite same_value_refl.
by case S: (same_value v x) => //=; rewrite has_filter_same ?S.
Qed.

Lemma unique_sub col w : List.In w (unique col) -> List.In w col.
Proof.
elim: col => [|x col IH] //=; case=> [E|I]; first by left.
by right; apply: IH; apply: In_filter I.
Qed.

Lemma all_unique (p : pred value) col : all p col -> all p (unique col).
Proof.
elim: col => [|x col IH] //= /andP [-> /IH H] /=.
exact: all_filter_keep.
Qed.

Lemma py_le_total_str : {in is_str &, total py_le}.
Proof.
move=> [s|x] [t|y] //= _ _.
by case: (String.leb_total s t) => ->; rewrite ?orbT.
Qed.

Lemma py_le_total_fin : {in is_fin &, total py_le}.
Proof.
move=> [s|[p|]] [t|[q|]] //= _ _.
case: (Qlt_le_dec p q) => [/Qlt_le_weak|] /Qle_bool_iff -> //.
by rewrite orbT.
Qed.

(** X13. What a filter selector offers.  The distinct values of a column
    are pairwise different, every cell of the column is one of them, and
    none is invented.  When the column holds strings only, or numbers only
    with no missing cell, sorting them cannot fail and yields the same values
    in ascending order. *)
Theorem selector_values (col : seq value) :
  [/\ pairwise (fun v w => ~~ same_value v w) (unique col),
      forall v, List.In v col -> has (same_value v) (unique col),
      forall w, List.In w (unique col) -> List.In w col
    & comparable col ->
      exists2 s, py_sorted (unique col) = ret s
        & [/\ sorted py_le s, size s = size (unique col)
            & forall p, count p s = count p (unique col) ] ].
Proof.
split.
- exact: unique_distinct.
- by move=> v; exact: unique_cover.
- by move=> w; exact: unique_sub.
- move=> C; exists (sort py_le (unique col)).
    rewrite /py_sorted mixed_kinds_unique.
    case/orP: C => [->|F]; first by rewrite andbF.
    by rewrite (negbTE (fin_not_str F)).
  split; last by move=> p; exact: count_sort.
  + case/orP: C => /all_unique A.
    * exact: (sort_sorted_in py_le_total_str A).
    * exact: (sort_sorted_in py_le_total_fin A).
  + exact: size_sort.
Qed.

Lemma selector_values_witness :
  py_sorted (unique (column sample "country"))
  = ret [:: VStr "Brazil"; VStr "India" ].
Proof.
case: (selector_values (column sample "country")) => _ _ _ /(_ isT) [s E _].
by rewrite E; move: E; vm_compute => -[->].
Defined.

(** ** Custom plot: colour and data *)

(** X14. For every plot kind, choosing the column whose name is the empty
    string as colour gives the very page obtained with no colour chosen:
    the empty name is falsy and is dropped.  Any other colour choice reaches
    the scatter, line, bar and histogram figures unchanged, and outside the
    pie kind the values selection is never used. *)
Theorem colour_choice (df : DataFrame) (sc sy : option value)
    (kind : plot_kind) (x y : string) (c : string) (pv pv' : string) :
  [/\ part4 df (mkWidgets sc sy kind x y (Some "") pv)
      = part4 df (mkWidgets sc sy kind x y None pv),
      c <> "" -> color_arg (Some c) = Some c,
      c <> "" ->
      [/\ custom_plot df Scatter x y (Some c) pv
          = PxScatter df x y (Some c) (y ++ " vs " ++ x),
          custom_plot df Line x y (Some c) pv
          = PxLine df x y (Some c) (y ++ " over " ++ x),
          custom_plot df Bar x y (Some c) pv
          = PxBar df x y (Some c) (y ++ " by " ++ x)
        & custom_plot df Histogram x y (Some c) pv
          = PxHistogram df x (Some c) ("Histogram of " ++ x) 20 ]
    & kind <> Pie ->
      part4 df (mkWidgets sc sy kind x y (Some c) pv')
      = part4 df (mkWidgets sc sy kind x y (Some c) pv) ].
Proof.
have N : c <> "" -> color_arg (Some c) = Some c.
  by rewrite /color_arg; case: String.eqb_spec.
split.
- by case: kind; reflexivity.
- exact: N.
- by move=> /N E; rewrite /custom_plot E.
- by case: kind => [||||] P; try reflexivity; case: P.
Qed.

Lemma part4_chart df w :
  exists l,
    part4 df w
    = (rcons l (PlotlyChart
                  (custom_plot df (plot_type w) (x_axis w) (y_axis w)
                     (color w) (pie_values w))),
       Done tt).
Proof.
case: w => sc sy [] x y c pv /=.
- by exists (custom_plot_controls df Scatter).
- by exists (custom_plot_controls df Line).
- by exists (custom_plot_controls df Bar).
- by exists (rcons (custom_plot_controls df Pie)
               (Selectbox "Select Values for Pie" (column_options df))).
- by exists (custom_plot_controls df Histogram).
Qed.

Lemma part3_result df sc sy :
  has_column df "country" -> has_column df "year" ->
  exists l df',
    part3 df sc sy = (l, Done df')
    /\ (df' = df
        \/ exists2 series, size series = size (rows df)
                         & df' = setitem df "highlight" series).
Proof.
move=> Hc Hy; case T: (truthy sy).
  rewrite /part3 (select_map_rows_effective _ Hy) /=.
  set md := mkDF _ _; have Hm : has_column md "country" by [].
  case: (empty md) => /=; first by do 2!eexists; split; [reflexivity | left].
  rewrite (attach_highlight_column _ Hm) /= T.
  by do 2!eexists; split; [reflexivity | left].
rewrite /part3 /select_map_rows T /=.
case: (empty df) => /=; first by do 2!eexists; split; [reflexivity | left].
rewrite (attach_highlight_column _ Hc) /=.
do 2!eexists; split; first reflexivity.
by right; eexists; last reflexivity; rewrite !size_map.
Qed.

(** X15. The custom plot is never filtered.  On a well-formed rectangular
    table, read from a file with ASCII header names that normalization keeps
    distinct, the page ends with the custom figure, and the table that figure
    is drawn from has as many rows as the uploaded table and the same cells
    in every uploaded column other than [highlight], whatever country and
    year are selected. *)
Theorem custom_plot_sees_whole_table (raw : DataFrame) (w : Widgets) :
  faithful_headers raw -> well_formed (load raw) -> rectangular (load raw) ->
  exists l df',
    [/\ log_of (dashboard (Some raw) w)
        = rcons l (PlotlyChart
                     (custom_plot df' (plot_type w) (x_axis w) (y_axis w)
                        (color w) (pie_values w))),
        size (rows df') = size (rows (load raw))
      & forall name, name <> "highlight" -> has_column (load raw) name ->
          column df' name = column (load raw) name ].
Proof.
move=> _ W R; case/and5P: (W) => Hc Hy Ht Ho /and4P [Sc Sy St So].
have [l3 [df' [E3 D]]] :=
  part3_result (selected_country w) (selected_year w) Hc Hy.
have [l4 E4] := part4_chart df' w.
set F := mkDF (columns (load raw))
  (selected_rows (load raw) (effective (selected_country w))
     (effective (selected_year w))).
have [l1 E1 _] : exists2 l, part1 F = (l, Done tt)
    & header_texts l
      = [:: "Part 1: Predicted Temperature, CO2, and Crop Yield Suggestions" ].
  by apply: part1_runs => //; exact: no_str_selected.
exists ((preamble
         ++ [:: Selectbox "Select Country" (filter_options (load raw) "country");
                Selectbox "Select Year" (filter_options (load raw) "year") ])
        ++ l1 ++ part2_log (load raw) ++ l3 ++ l4)%SEQ, df'; split.
- rewrite (dashboard_analysis w Hc Sc Hy Sy) /analysis.
  rewrite (apply_filters_effective _ _ Hc Hy) bind_ret -/F E1 bind_done.
  rewrite (part2_runs Hy Ht Ho) bind_done E3 bind_done E4.
  by rewrite /log_of /= rcons_cat /= rcons_cat.
- by case: D => [->|[series S ->]] //; rewrite size_setitem.
- move=> name N H; case: D => [->|[series S ->]] //.
  exact: column_setitem_other.
Qed.

Lemma custom_plot_sees_whole_table_witness :
  exists l df',
    log_of (dashboard (Some sample)
              (mkWidgets (Some (VStr "India")) (Some (VNum (Fin 2000)))
                 Scatter "year" "average_co2" None "year"))
    = rcons l (PlotlyChart
                 (custom_plot df' Scatter "year" "average_co2" None "year"))
    /\ size (rows df') = 3.
Proof.
have H : faithful_headers sample by [].
have W : well_formed (load sample) by [].
have R : rectangular (load sample) by [].
case: (custom_plot_sees_whole_table
         (mkWidgets (Some (VStr "India")) (Some (VNum (Fin 2000)))
            Scatter "year" "average_co2" None "year") H W R)
  => l [df' [E S _]].
by exists l, df'.
Defined.

(** ** Shape of the tables *)

Lemma select_map_rows_done df sy md :
  select_map_rows df sy = ret md ->
  md = mkDF (columns df)
         [seq r <- rows df
            | satisfies (effective sy) (cell (column_index df "year") r)].
Proof.
case H: (truthy sy && ~~ has_column df "year").
  by case/andP: H => T /negbTE H; rewrite /select_map_rows T /getitem H.
rewrite /select_map_rows filter_step_guarded; last by case=> <-.
by move=> T; move: H; rewrite T /=; case: (has_column df "year").
Qed.

(** X16. Every table the script builds keeps one cell per column in each
    row.  If the parsed file is rectangular, so is the table with normalized
    names, the filtered table, the rows taken for the map and the map table
    once the highlight column is attached. *)
Theorem tables_stay_rectangular (raw : DataFrame) (sc sy : option value) :
  rectangular raw ->
  [/\ rectangular (load raw),
      forall filtered_df,
        apply_filters (load raw) sc sy = ret filtered_df ->
        rectangular filtered_df
    & forall map_data labelled,
        select_map_rows (load raw) sy = ret map_data ->
        attach_highlight map_data sc = ret labelled ->
        rectangular map_data /\ rectangular labelled ].
Proof.
move=> R.
have L : rectangular (load raw) by rewrite /rectangular /load /= size_map.
split=> //.
- move=> F; rewrite apply_filters_cases.
  case: (truthy sc && _) => //; case: (truthy sy && _) => // -[<-].
  exact: all_filter_keep.
- move=> md lab /select_map_rows_done -> {md}.
  set md := mkDF _ _ => A.
  have Rm : rectangular md by exact: all_filter_keep.
  split=> //; move: A; rewrite /attach_highlight /getitem.
  case: (has_column md "country") => //; rewrite bind_ret => -[<-].
  exact: rectangular_setitem.
Qed.

Lemma tables_stay_rectangular_witness :
  rectangular (load sample)
  /\ rectangular (mkDF climate_columns [:: record "India" 2001 2.0 410 ]).
Proof.
have R : rectangular sample by [].
case: (@tables_stay_rectangular sample (Some (VStr "India"))
         (Some (VNum (Fin 2001))) R) => A B _.
by split; [exact: A | apply: B].
Defined.

Lemma colour_choice_witness :
  color_arg (Some "year") = Some "year"
  /\ custom_plot sample Bar "country" "average_co2" (Some "year") "year"
     = PxBar sample "country" "average_co2" (Some "year")
         "average_co2 by country".
Proof.
have N : "year" <> "" by [].
case: (@colour_choice sample None None Bar "country" "average_co2" "year"
         "year" "year") => _ /(_ N) A /(_ N) [_ _ B _] _.
by split.
Defined.

(** ** Missing columns: what the script reports *)





